(** * The UN-OCHA layer downloader, [helper_scripts/python/donwload_un_ocha_opt.py]

    A shallow embedding of the script and the properties its specification
    states about it.

    The script talks to three things outside itself: the ArcGIS REST server,
    the terminal, and the download folder.  They are modelled as follows.

    - The server is a function [remote] from the sequence number of a GET
      request and the request itself to a [Reply]: either the call raised, or
      it answered with a status code and a body that is JSON or not.  A JSON
      body is an object, seen through the four keys the script reads
      ([services], [layers], [objectIds], [features]).  A key may be absent;
      [services], [objectIds] and [features] may be present and [null]; an
      entry of the service list may lack its [name] or its [type].  Where a
      value is there, [services] is a list of entries with string fields,
      [layers] a list of entries with an integer [id] and a string [name],
      [objectIds] a list of integers and [features] a list.  Features are
      never inspected by the script and stay abstract.
    - Standard input is the finite list of lines typed before end of file;
      [input()] on the empty list raises [EOFError].
    - The download folder is a finite map from paths, as the script spells
      them, to file contents; [open_error] says for which paths
      [open(path, "w")] raises.
    - Console output, requests, pauses and file writes are recorded, in
      order, as a list of [Event]s.

    Strings are Python strings: lists of Unicode code points.  On ASCII
    strings every operation is defined here; what CPython looks up in its
    Unicode database for other code points ([uni_lower], [uni_isalnum],
    [uni_isspace]) and the serialiser [json_dump] are parameters. *)

From Stdlib Require Import ZArith NArith List String Ascii DecimalString Lia.
From stdpp Require Import base list gmap.
From Stdlib Require Import Sorted DecimalZ.
Import ListNotations.

(** ** Python strings *)

Abbreviation pystr := (list N).

(** A string literal of the source, as code points. *)
Definition py (s : string) : pystr :=
  map N_of_ascii (list_ascii_of_string s).

Definition nl : pystr := [10%N].

(** Literals stay folded in proofs. *)
Arguments py : simpl never.

Definition str_eq (a b : pystr) : bool := bool_decide (a = b).

Definition is_ascii (c : N) : bool := (c <? 128)%N.

Definition ascii_lower (c : N) : N :=
  if ((65 <=? c) && (c <=? 90))%N then (c + 32)%N else c.

Definition ascii_isalnum (c : N) : bool :=
  ((48 <=? c) && (c <=? 57) || (65 <=? c) && (c <=? 90)
   || (97 <=? c) && (c <=? 122))%N.

(** CPython's [_Py_ascii_whitespace]: TAB LF VT FF CR, FS GS RS US, SPACE. *)
Definition ascii_isspace (c : N) : bool :=
  ((9 <=? c) && (c <=? 13) || (28 <=? c) && (c <=? 32))%N.

(** [str(x)] for an integer. *)
Definition str_Z (z : Z) : pystr := py (NilZero.string_of_int (Z.to_int z)).
Definition str_nat (n : nat) : pystr := str_Z (Z.of_nat n).
Arguments str_Z : simpl never.
Arguments str_nat : simpl never.

(** [sep.join(parts)] *)
Fixpoint join (sep : pystr) (parts : list pystr) : pystr :=
  match parts with
  | [] => []
  | [p] => p
  | p :: rest => p ++ sep ++ join sep rest
  end.

(** [s.startswith(p)] *)
Fixpoint startswith (p s : pystr) : bool :=
  match p, s with
  | [], _ => true
  | _ :: _, [] => false
  | a :: p', b :: s' => (a =? b)%N && startswith p' s'
  end.

(** [needle in hay] on strings: [needle] occurs as a substring. *)
Fixpoint contains (needle hay : pystr) : bool :=
  startswith needle hay ||
  match hay with
  | [] => false
  | _ :: rest => contains needle rest
  end.

(** [s.replace(old, new)] for a non-empty [old]: occurrences are replaced
    left to right, without overlap.  [skip] counts the characters of a match
    still to be dropped. *)
Fixpoint replace_from (old new : pystr) (skip : nat) (s : pystr) : pystr :=
  match s with
  | [] => []
  | c :: rest =>
      match skip with
      | S k => replace_from old new k rest
      | O =>
          if startswith old s
          then new ++ replace_from old new (length old - 1) rest
          else c :: replace_from old new 0 rest
      end
  end.

Definition replace (old new s : pystr) : pystr := replace_from old new 0 s.

(** [os.path.join(a, b)] on a POSIX system. *)
Definition path_join (a b : pystr) : pystr :=
  if startswith (py "/") b then b
  else if str_eq a [] || str_eq (drop (length a - 1) a) (py "/") then a ++ b
  else a ++ py "/" ++ b.

(** ** Configuration *)

Definition BASE_URL : pystr :=
  py "https://gis.unocha.org/server/rest/services/Hosted".
Definition DOWNLOAD_FOLDER : pystr := py "downloads_qgis_ready".
Definition CRS : pystr := py "4326".
Definition LARGE_LAYER_THRESHOLD : Z := 100000.
Definition KEYWORDS : list pystr :=
  map py ["Obstacle"; "Barrier"; "Checkpoint"; "Road"; "Palestine";
          "Gaza"; "West Bank"; "Crossing"; "Fence"; "Gate"]%string.

Definition chunk_size : nat := 1000.

(** ** Requests, replies and the observable trace *)

Record Service := { svc_name : pystr; svc_type : pystr }.

(** An entry of the service list of a catalog; either key may be missing. *)
Record Entry := { entry_name : option pystr; entry_type : option pystr }.

Definition entry_of (service : Service) : Entry :=
  {| entry_name := Some (svc_name service);
     entry_type := Some (svc_type service) |}.
Record Layer := { lyr_id : Z; lyr_name : pystr }.

Record Request := { url : pystr; params : list (pystr * pystr) }.

Inductive Event :=
| MakeDirs (path : pystr)
| Print (text : pystr)
| Get (req : Request)
| Input (prompt : pystr)
| Progress (done total : nat)
| Sleep100ms
| Save (path content : pystr).

Inductive Result (A : Type) :=
| Ok (a : A)
| Exn (e : pystr).
Arguments Ok {A} a.
Arguments Exn {A} e.

Record World := {
  calls : nat;
  stdin : list pystr;
  folder_exists : bool;
  files : gmap pystr pystr
}.

Definition tick (w : World) : World :=
  {| calls := S (calls w); stdin := stdin w;
     folder_exists := folder_exists w; files := files w |}.

Definition set_stdin (lines : list pystr) (w : World) : World :=
  {| calls := calls w; stdin := lines;
     folder_exists := folder_exists w; files := files w |}.

Definition set_folder (w : World) : World :=
  {| calls := calls w; stdin := stdin w;
     folder_exists := true; files := files w |}.

Definition set_files (fs : gmap pystr pystr) (w : World) : World :=
  {| calls := calls w; stdin := stdin w;
     folder_exists := folder_exists w; files := fs |}.

(** A computation of the script: from a world to a value or a raised
    exception, the world afterwards, and the events it produced. *)
Definition M (A : Type) : Type := World -> Result A * World * list Event.

Global Instance M_ret : MRet M := fun A a w => (Ok a, w, []).

Global Instance M_bind : MBind M := fun A B f m w =>
  match m w with
  | (Ok a, w1, e1) => let '(r, w2, e2) := f a w1 in (r, w2, e1 ++ e2)
  | (Exn x, w1, e1) => (Exn x, w1, e1)
  end.

Definition raise {A} (e : pystr) : M A := fun w => (Exn e, w, []).

(** [try: m  except Exception as e: h e] *)
Definition try_except {A} (m : M A) (h : pystr -> M A) : M A := fun w =>
  match m w with
  | (Ok a, w1, e1) => (Ok a, w1, e1)
  | (Exn x, w1, e1) => let '(r, w2, e2) := h x w1 in (r, w2, e1 ++ e2)
  end.

(** [d.get(key, default)]: the default for an absent key; for a present
    one its value, which is Python's [None] when the JSON value is [null]. *)
Definition get_default {A} (field : option (option A)) (dflt : A) : option A :=
  match field with
  | None => Some dflt
  | Some v => v
  end.

(** [str(KeyError(key))] *)
Definition key_error (key : pystr) : pystr := py "'" ++ key ++ py "'".

(** [d[key]]: a missing key raises [KeyError(key)]. *)
Definition getitem {A} (key : pystr) (field : option A) : M A :=
  match field with
  | Some v => mret v
  | None => raise (key_error key)
  end.

(** [str(e)] for the [TypeError] of iterating over [None] and of
    [len(None)]. *)
Definition not_iterable : pystr := py "'NoneType' object is not iterable".
Definition no_len : pystr := py "object of type 'NoneType' has no len()".

(** Iterating over a value that may be [None]. *)
Definition iterate {A} (v : option (list A)) : M (list A) :=
  match v with
  | Some l => mret l
  | None => raise not_iterable
  end.

Definition emit (e : Event) : M unit := fun w => (Ok tt, w, [e]).
Definition print (text : pystr) : M unit := emit (Print text).

(** [for x in xs: body x] *)
Fixpoint for_each {A} (xs : list A) (body : A -> M unit) : M unit :=
  match xs with
  | [] => mret tt
  | x :: rest => body x;; for_each rest body
  end.

(** A [for] loop that updates a local variable. *)
Fixpoint for_fold {A S} (xs : list A) (body : S -> A -> M S) (s : S) : M S :=
  match xs with
  | [] => mret s
  | x :: rest => s' ← body s x; for_fold rest body s'
  end.

(** [range(start, stop, step)] for a positive [step]; at most
    [stop - start] values are below [stop]. *)
Fixpoint range_from (fuel i stop step : nat) : list nat :=
  match fuel with
  | O => []
  | S f => if i <? stop then i :: range_from f (i + step) stop step else []
  end.

Definition range (start stop step : nat) : list nat :=
  range_from (stop - start) start stop step.

Definition events {A} (r : Result A * World * list Event) : list Event := r.2.
Definition world_after {A} (r : Result A * World * list Event) : World := r.1.2.
Definition outcome {A} (r : Result A * World * list Event) : Result A := r.1.1.

(** ** The script *)

Section Downloader.

(** CPython's Unicode database, consulted for code points above 127. *)
Variable uni_lower : pystr -> pystr.
Variable uni_isalnum : N -> bool.
Variable uni_isspace : N -> bool.

(** GeoJSON feature objects. *)
Variable Feature : Type.

(** The JSON object of a response body, through the keys the script reads;
    [None] is an absent key, and [Some None] a key whose value is [null]. *)
Record Doc := {
  services : option (option (list Entry));
  layers : option (list Layer);
  objectIds : option (option (list Z));
  features : option (option (list Feature))
}.

Inductive Body :=
| NotJson (e : pystr)
| Json (d : Doc).

Record Response := { status_code : Z; body : Body }.

Inductive Reply :=
| Raised (e : pystr)
| Answered (r : Response).

(** What [json.dump] is given: the dictionary built by [download_in_chunks],
    or the document [simple_download] received. *)
Inductive GeoJson :=
| FeatureCollection (fs : list Feature)
| Document (d : Doc).

Variable remote : nat -> Request -> Reply.
Variable json_dump : GeoJson -> pystr.
Variable open_error : pystr -> option pystr.

(** [s.lower()]: CPython lowers an ASCII string character by character and
    goes to the Unicode database otherwise. *)
Definition str_lower (s : pystr) : pystr :=
  if forallb is_ascii s then map ascii_lower s else uni_lower s.

Definition isspace (c : N) : bool :=
  if is_ascii c then ascii_isspace c else uni_isspace c.

Fixpoint lstrip (s : pystr) : pystr :=
  match s with
  | [] => []
  | c :: rest => if isspace c then lstrip rest else s
  end.

Definition rstrip (s : pystr) : pystr := rev (lstrip (rev s)).

(** [s.strip()] *)
Definition strip (s : pystr) : pystr := rstrip (lstrip s).

(** The regular expression class [\w] on a [str] pattern. *)
Definition is_word (c : N) : bool :=
  if is_ascii c then ascii_isalnum c || (c =? 95)%N else uni_isalnum c.

(** The characters [sanitize_filename] keeps: the complement of
    [[^\w\-_\. ]]. *)
Definition safe_char (c : N) : bool :=
  is_word c || (c =? 45)%N || (c =? 95)%N || (c =? 46)%N || (c =? 32)%N.

Definition sanitize_filename (name : pystr) : pystr :=
  map (fun c => if safe_char c then c else 95%N) name.

(** *** Primitive effects *)

Definition requests_get (u : pystr) (ps : list (pystr * pystr)) : M Response :=
  fun w =>
    let req := {| url := u; params := ps |} in
    match remote (calls w) req with
    | Raised e => (Exn e, tick w, [Get req])
    | Answered r => (Ok r, tick w, [Get req])
    end.

(** [r.json()] *)
Definition json (r : Response) : M Doc :=
  match body r with
  | NotJson e => raise e
  | Json d => mret d
  end.

(** [time.sleep(0.1)] *)
Definition sleep : M unit := emit Sleep100ms.

(** [with open(path, "w") as f: json.dump(data, f)] *)
Definition write_file (path content : pystr) : M unit := fun w =>
  match open_error path with
  | Some e => (Exn e, w, [])
  | None => (Ok tt, set_files (<[path := content]> (files w)) w,
             [Save path content])
  end.

(** [if not os.path.exists(d): os.makedirs(d)] *)
Definition ensure_folder (d : pystr) : M unit := fun w =>
  if folder_exists w then (Ok tt, w, [])
  else (Ok tt, set_folder w, [MakeDirs d]).

(** [str(e)] for the [EOFError] of [input()]. *)
Definition eof_error : pystr := py "EOF when reading a line".

Definition is_choice (choice : pystr) : bool :=
  str_eq choice (py "y") || str_eq choice (py "n").

(** The prompt loop
    [while True: choice = input(p).lower().strip(); if choice in ['y','n']: break]
    run on the lines still on standard input. *)
Fixpoint read_choice (prompt : pystr) (lines : list pystr)
  : Result pystr * list pystr * list Event :=
  match lines with
  | [] => (Exn eof_error, [], [Input prompt])
  | line :: rest =>
      let choice := strip (str_lower line) in
      if is_choice choice then (Ok choice, rest, [Input prompt])
      else let '(r, rest', evs) := read_choice prompt rest in
           (r, rest', Input prompt :: evs)
  end.

Definition confirm (prompt : pystr) : M pystr := fun w =>
  let '(r, rest, evs) := read_choice prompt (stdin w) in
  (r, set_stdin rest w, evs).

(** *** [get_layer_ids] *)

Definition ids_params : list (pystr * pystr) :=
  [(py "where", py "1=1"); (py "returnIdsOnly", py "true"); (py "f", py "json")].

Definition get_layer_ids (layer_url : pystr)
  : M (option (list Z) * option pystr) :=
  try_except
    (r ← requests_get (layer_url ++ py "/query") ids_params;
     if negb (status_code r =? 200)%Z
     then mret (None, Some (py "HTTP Error " ++ str_Z (status_code r)))
     else
       data ← json r;
       match objectIds data with
       | Some ids => mret (ids, None)
       | None => mret (None, Some (py "Layer does not support ID querying"))
       end)
    (fun e => mret (None, Some e)).

(** *** [download_in_chunks] *)

Definition chunk_params (chunk_ids : list Z) : list (pystr * pystr) :=
  [(py "objectIds", join (py ",") (map str_Z chunk_ids));
   (py "outFields", py "*"); (py "f", py "geojson"); (py "outSR", CRS)].

(** The body of the loop, for the chunk starting at index [i]. *)
Definition download_chunk (layer_url : pystr) (all_ids : list Z)
    (total_count : nat) (all_features : list Feature) (i : nat)
  : M (list Feature) :=
  let chunk_ids := take chunk_size (drop i all_ids) in
  try_except
    (r_chunk ← requests_get (layer_url ++ py "/query") (chunk_params chunk_ids);
     all_features' ←
       (if (status_code r_chunk =? 200)%Z then
          feat_data ← json r_chunk;
          batch_features ← iterate (get_default (features feat_data) []);
          let all_features' := all_features ++ batch_features in
          emit (Progress (length all_features') total_count);;
          mret all_features'
        else mret all_features);
     sleep;;
     mret all_features')
    (fun e =>
       print (nl ++ py "      [!] Error on batch " ++ str_nat i ++ py ": " ++ e);;
       mret all_features).

Definition download_in_chunks (layer_url : pystr) (all_ids : list Z)
    (total_count : nat) : M GeoJson :=
  print (py "      -> Downloading " ++ str_nat total_count
         ++ py " features in batches...");;
  all_features ← for_fold (range 0 total_count chunk_size)
                    (download_chunk layer_url all_ids total_count) [];
  print [];;
  mret (FeatureCollection all_features).

(** *** [simple_download] *)

Definition simple_params : list (pystr * pystr) :=
  [(py "where", py "1=1"); (py "outFields", py "*");
   (py "f", py "geojson"); (py "outSR", CRS)].

Definition simple_download (layer_url : pystr) : M (option GeoJson) :=
  print (py "      -> Attempting simple download (no count available)...");;
  r ← requests_get (layer_url ++ py "/query") simple_params;
  if (status_code r =? 200)%Z
  then d ← json r; mret (Some (Document d))
  else mret None.

(** *** [main] *)

(** The features of a result: those of the list under its [features] key,
    none when the key is absent or [null]. *)
Definition features_of (g : GeoJson) : list Feature :=
  match g with
  | FeatureCollection fs => fs
  | Document d => default [] (get_default (features d) [])
  end.

(** [len(geojson_data.get('features', []))] *)
Definition len_features (g : GeoJson) : M nat :=
  match g with
  | FeatureCollection fs => mret (length fs)
  | Document d =>
      match get_default (features d) [] with
      | Some fs => mret (length fs)
      | None => raise no_len
      end
  end.

(** The f-string of line 197. *)
Definition layer_filename (clean_s_name : pystr) (l_id : Z) (l_name : pystr)
  : pystr :=
  clean_s_name ++ py "___L" ++ str_Z l_id ++ py "_"
  ++ sanitize_filename l_name ++ py ".geojson".

(** Step 5, "Execute Download". *)
Definition execute_download (clean_s_name : pystr) (l_id : Z) (l_name : pystr)
    (full_layer_url : pystr) (should_download : bool)
    (ids : option (list Z)) (total_count : nat) : M unit :=
  if should_download then
    geojson_data ←
      match ids with
      | Some ((_ :: _) as l) =>
          g ← download_in_chunks full_layer_url l total_count; mret (Some g)
      | _ => simple_download full_layer_url
      end;
    match geojson_data with
    | Some g =>
        n ← len_features g;
        if 0 <? n then
          let filename := layer_filename clean_s_name l_id l_name in
          let filepath := path_join DOWNLOAD_FOLDER filename in
          write_file filepath (json_dump g);;
          print (py "      [SUCCESS] Saved to: " ++ filepath)
        else print (py "      [FAIL] Download resulted in empty file.")
    | None => print (py "      [FAIL] Download resulted in empty file.")
    end
  else mret tt.

Definition large_prompt : pystr :=
  py "      >> Do you want to download this huge layer? (y/n): ".
Definition unknown_prompt : pystr := py "      >> Download anyway? (y/n): ".

(** [f"{error}"] *)
Definition fmt_error (error : option pystr) : pystr :=
  match error with
  | Some e => e
  | None => py "None"
  end.

(** The body of the loop over the layers of a service (steps 4 and 5). *)
Definition check_layer (clean_s_name service_url : pystr) (layer : Layer)
  : M unit :=
  let l_name := lyr_name layer in
  let l_id := lyr_id layer in
  let full_layer_url := service_url ++ py "/" ++ str_Z l_id in
  print (nl ++ py "Checking: [" ++ clean_s_name ++ py "] -> " ++ l_name);;
  '(ids, error) ← get_layer_ids full_layer_url;
  match ids with
  | Some l =>
      let total_count := length l in
      if total_count =? 0 then print (py "   [x] Empty layer. Skipping.")
      else
        should_download ←
          (if (LARGE_LAYER_THRESHOLD <? Z.of_nat total_count)%Z then
             print (py "   [!] LARGE LAYER DETECTED: " ++ str_nat total_count
                    ++ py " features.");;
             choice ← confirm large_prompt;
             if str_eq choice (py "y") then mret true
             else print (py "   Skipped.");; mret false
           else
             print (py "   [OK] Size: " ++ str_nat total_count
                    ++ py " features. Auto-downloading...");;
             mret true);
        execute_download clean_s_name l_id l_name full_layer_url
          should_download ids total_count
  | None =>
      print (py "   [?] Could not determine size. (" ++ fmt_error error
             ++ py ")");;
      choice ← confirm unknown_prompt;
      execute_download clean_s_name l_id l_name full_layer_url
        (str_eq choice (py "y")) ids 0
  end.

(** The keyword test of line 128. *)
Definition has_keyword (s_name : pystr) : bool :=
  existsb (fun k => contains (str_lower k) (str_lower s_name)) KEYWORDS.

Definition service_url_of (s_name : pystr) : pystr :=
  py "https://gis.unocha.org/server/rest/services/" ++ s_name
  ++ py "/FeatureServer".

(** Step 3, for a service that passed the filters. *)
Definition scan_service (s_name : pystr) : M unit :=
  let clean_s_name := replace (py "Hosted/") [] s_name in
  let service_url := service_url_of s_name in
  try_except
    (l_resp ← requests_get service_url [(py "f", py "json")];
     l_data ← json l_resp;
     match layers l_data with
     | None => mret tt
     | Some ls => for_each ls (check_layer clean_s_name service_url)
     end)
    (fun e => print (py "Error scanning service " ++ s_name ++ py ": " ++ e)).

(** The body of the loop over the services (step 2). *)
Definition visit_service (service : Entry) : M unit :=
  s_name ← getitem (py "name") (entry_name service);
  s_type ← getitem (py "type") (entry_type service);
  if negb (has_keyword s_name) then mret tt
  else if negb (str_eq s_type (py "FeatureServer")) then mret tt
  else scan_service s_name.

Definition main : M unit :=
  ensure_folder DOWNLOAD_FOLDER;;
  print (py "--- Smart Downloader (CRS: " ++ CRS ++ py ") ---");;
  print (py "--- Auto-downloading layers under "
         ++ str_Z LARGE_LAYER_THRESHOLD ++ py " features ---");;
  fetched ←
    try_except
      (resp ← requests_get BASE_URL [(py "f", py "json")];
       catalog ← json resp;
       mret (Some (get_default (services catalog) [])))
      (fun e => print (py "Error connecting to server: " ++ e);; mret None);
  match fetched with
  | None => mret tt
  | Some svcs =>
      entries ← iterate svcs;
      for_each entries visit_service;;
      print (nl ++ py "All done!")
  end.

(** ** Vocabulary of the properties *)

(** The GET requests among the events, in the order they were issued. *)
Definition requests_of (evs : list Event) : list Request :=
  omap (fun e => match e with Get r => Some r | _ => None end) evs.

(** The prompts shown, in order. *)
Definition prompts_of (evs : list Event) : list pystr :=
  omap (fun e => match e with Input p => Some p | _ => None end) evs.

(** The files written, in order. *)
Definition saves_of (evs : list Event) : list (pystr * pystr) :=
  omap (fun e => match e with Save p c => Some (p, c) | _ => None end) evs.

(** The console lines printed, in order. *)
Definition prints_of (evs : list Event) : list pystr :=
  omap (fun e => match e with Print t => Some t | _ => None end) evs.

(** The window of identifiers [all_ids[i : i + chunk_size]]. *)
Definition chunk_of (all_ids : list Z) (i : nat) : list Z :=
  take chunk_size (drop i all_ids).

(** The windows of an identifier list, in order. *)
Definition chunks (all_ids : list Z) : list (list Z) :=
  map (chunk_of all_ids) (range 0 (length all_ids) chunk_size).

Definition chunk_request (layer_url : pystr) (chunk_ids : list Z) : Request :=
  {| url := layer_url ++ py "/query"; params := chunk_params chunk_ids |}.

(** A chunk request succeeds when it answers 200 with a JSON body whose
    [features] are not [null]. *)
Definition chunk_ok (reply : Reply) : bool :=
  match reply with
  | Answered {| status_code := c; body := Json d |} =>
      match get_default (features d) [] with
      | Some _ => (c =? 200)%Z
      | None => false
      end
  | _ => false
  end.

(** The features a chunk request returned: those of a successful reply. *)
Definition returned_features (reply : Reply) : list Feature :=
  match reply with
  | Answered {| status_code := c; body := Json d |} =>
      if (c =? 200)%Z then default [] (get_default (features d) []) else []
  | _ => []
  end.

(** The exception a chunk request ended in, if any: [requests.get] raised,
    or the reply had status 200 and [r.json()] raised or the [features] to
    append were [None]. *)
Definition chunk_exception (reply : Reply) : option pystr :=
  match reply with
  | Raised e => Some e
  | Answered {| status_code := c; body := NotJson e |} =>
      if (c =? 200)%Z then Some e else None
  | Answered {| status_code := c; body := Json d |} =>
      match get_default (features d) [] with
      | Some _ => None
      | None => if (c =? 200)%Z then Some not_iterable else None
      end
  end.

(** The line printed by the handler of line 89. *)
Definition batch_error_line (i : nat) (e : pystr) : pystr :=
  nl ++ py "      [!] Error on batch " ++ str_nat i ++ py ": " ++ e.

(** The replies to the chunk requests of a download that starts when
    [n0] requests have been issued. *)
Definition chunk_replies (layer_url : pystr) (all_ids : list Z) (n0 : nat)
  : list Reply :=
  imap (fun k c => remote (n0 + k) (chunk_request layer_url c)) (chunks all_ids).

(** Only the request counter moved between [w] and [w']. *)
Definition advanced (n : nat) (w w' : World) : Prop :=
  calls w' = n + calls w /\ stdin w' = stdin w /\
  folder_exists w' = folder_exists w /\ files w' = files w.

(** The number of features of a download's result. *)
Definition feature_count (r : Result GeoJson) : nat :=
  match r with
  | Ok g => length (features_of g)
  | Exn _ => 0
  end.

(** Every event a computation produces satisfies [P]. *)
Definition emits (P : Event -> Prop) {A} (m : M A) : Prop :=
  forall w, Forall P (events (m w)).

(** Two worlds that agree on what the script reads: the position in the
    sequence of requests and the lines on standard input. *)
Definition same_io (w1 w2 : World) : Prop :=
  calls w1 = calls w2 /\ stdin w1 = stdin w2.

(** A computation whose result, events and further reads do not depend on
    the download folder. *)
Definition folder_blind {A} (m : M A) : Prop :=
  forall w1 w2, same_io w1 w2 ->
    outcome (m w1) = outcome (m w2) /\ events (m w1) = events (m w2)
    /\ same_io (world_after (m w1)) (world_after (m w2)).

(** The folder after a sequence of file writes. *)
Fixpoint apply_saves (svs : list (pystr * pystr)) (fs : gmap pystr pystr)
  : gmap pystr pystr :=
  match svs with
  | [] => fs
  | (p, c) :: rest => apply_saves rest (<[p := c]> fs)
  end.

(** The content last written to [q], if it was written at all. *)
Fixpoint last_write (q : pystr) (svs : list (pystr * pystr)) : option pystr :=
  match svs with
  | [] => None
  | (p, c) :: rest =>
      match last_write q rest with
      | Some c' => Some c'
      | None => if decide (p = q) then Some c else None
      end
  end.

(** A computation that changes the folder only through the writes it
    reports. *)
Definition tracks_files {A} (m : M A) : Prop :=
  forall w, files (world_after (m w))
            = apply_saves (saves_of (events (m w))) (files w).

(** Division rounded up. *)
Definition div_up (a b : nat) : nat := (a + b - 1) / b.

(** The events of one pass through the loop of [download_in_chunks], given
    the reply to its request. *)
Definition chunk_events (layer_url : pystr) (all_ids : list Z)
    (total_count : nat) (all_features : list Feature) (i : nat)
    (reply : Reply) : list Event :=
  Get (chunk_request layer_url (chunk_of all_ids i)) ::
  match chunk_exception reply with
  | Some e => [Print (batch_error_line i e)]
  | None =>
      if chunk_ok reply
      then [Progress (length (all_features ++ returned_features reply))
              total_count; Sleep100ms]
      else [Sleep100ms]
  end.

(** The line printed when a chunked download starts. *)
Definition downloading_line (total_count : nat) : pystr :=
  py "      -> Downloading " ++ str_nat total_count
  ++ py " features in batches...".

(** The request of [get_layer_ids]. *)
Definition ids_request (layer_url : pystr) : Request :=
  {| url := layer_url ++ py "/query"; params := ids_params |}.

(** What [get_layer_ids] returns, given the reply to its request. *)
Definition ids_result (reply : Reply) : option (list Z) * option pystr :=
  match reply with
  | Raised e => (None, Some e)
  | Answered r =>
      if negb (status_code r =? 200)%Z
      then (None, Some (py "HTTP Error " ++ str_Z (status_code r)))
      else match body r with
           | NotJson e => (None, Some e)
           | Json d =>
               match objectIds d with
               | Some ids => (ids, None)
               | None => (None, Some (py "Layer does not support ID querying"))
               end
           end
  end.

(** The ID query of a layer, issued in world [w], succeeds and returns the
    identifiers [ids]. *)
Definition ids_query_returns (layer_url : pystr) (w : World) (ids : list Z)
  : Prop :=
  exists d, remote (calls w) (ids_request layer_url)
            = Answered {| status_code := 200; body := Json d |}
            /\ objectIds d = Some (Some ids).

(** [input(...).lower().strip()] *)
Definition normalise (line : pystr) : pystr := strip (str_lower line).

Definition checking_line (clean_s_name l_name : pystr) : pystr :=
  nl ++ py "Checking: [" ++ clean_s_name ++ py "] -> " ++ l_name.
Definition empty_line : pystr := py "   [x] Empty layer. Skipping.".
Definition large_line (total_count : nat) : pystr :=
  py "   [!] LARGE LAYER DETECTED: " ++ str_nat total_count ++ py " features.".
Definition auto_line (total_count : nat) : pystr :=
  py "   [OK] Size: " ++ str_nat total_count
  ++ py " features. Auto-downloading...".
Definition skipped_line : pystr := py "   Skipped.".

(** The path a layer is saved under (lines 197 and 198). *)
Definition layer_path (clean_s_name : pystr) (l_id : Z) (l_name : pystr)
  : pystr :=
  path_join DOWNLOAD_FOLDER (layer_filename clean_s_name l_id l_name).

Definition not_input (e : Event) : Prop :=
  match e with Input _ => False | _ => True end.

Definition not_save (e : Event) : Prop :=
  match e with Save _ _ => False | _ => True end.

Definition not_get (e : Event) : Prop :=
  match e with Get _ => False | _ => True end.

Definition unknown_line (error : option pystr) : pystr :=
  py "   [?] Could not determine size. (" ++ fmt_error error ++ py ")".

(** A line that the prompt loop does not accept. *)
Definition rejected (line : pystr) : Prop := is_choice (normalise line) = false.

(** The layer-list request of step 3. *)
Definition service_request (s_name : pystr) : Request :=
  {| url := service_url_of s_name; params := [(py "f", py "json")] |}.

(** A file write goes to the path of the layer [l_id], [l_name] of the
    service whose cleaned name is [clean_s_name]. *)
Definition saves_layer (clean_s_name : pystr) (l_id : Z) (l_name : pystr)
    (e : Event) : Prop :=
  match e with
  | Save p _ => p = layer_path clean_s_name l_id l_name
  | _ => True
  end.

(** [path] is the path of a layer of a service of the list [entries]: the
    service passed both filters of step 2, and the layer is an entry of the
    layer list some reply to the layer-list request of that service held. *)
Definition layer_of_catalog (entries : list Entry) (path : pystr) : Prop :=
  exists s_name layer n c d ls,
    In {| entry_name := Some s_name;
          entry_type := Some (py "FeatureServer") |} entries
    /\ has_keyword s_name = true
    /\ remote n (service_request s_name)
       = Answered {| status_code := c; body := Json d |}
    /\ layers d = Some ls
    /\ In layer ls
    /\ path = layer_path (replace (py "Hosted/") [] s_name)
                (lyr_id layer) (lyr_name layer).

Definition catalog_save_event (entries : list Entry) (e : Event) : Prop :=
  match e with
  | Save p _ => layer_of_catalog entries p
  | _ => True
  end.

(** The request of step 1. *)
Definition catalog_request : Request :=
  {| url := BASE_URL; params := [(py "f", py "json")] |}.

(** The value of [services] step 1 obtains from the reply, or the exception
    it catches. *)
Definition catalog_services (reply : Reply)
  : Result (option (list Entry)) :=
  match reply with
  | Raised e => Exn e
  | Answered r =>
      match body r with
      | NotJson e => Exn e
      | Json d => Ok (get_default (services d) [])
      end
  end.

(** The two filters of step 2. *)
Definition considered (service : Service) : bool :=
  has_keyword (svc_name service)
  && str_eq (svc_type service) (py "FeatureServer").

(** The key of lines 124 and 125 an entry of the service list lacks, the
    name being read first. *)
Definition missing_key (entry : Entry) : option pystr :=
  match entry_name entry, entry_type entry with
  | None, _ => Some (py "name")
  | Some _, None => Some (py "type")
  | Some _, Some _ => None
  end.



Definition done_line : pystr := nl ++ py "All done!".
Definition connect_error_line (e : pystr) : pystr :=
  py "Error connecting to server: " ++ e.

(** The world once the download folder exists. *)
Definition with_folder (w : World) : World :=
  if folder_exists w then w else set_folder w.

(** What [main] does up to and including the catalog request. *)
Definition preamble (w : World) : list Event :=
  (if folder_exists w then [] else [MakeDirs DOWNLOAD_FOLDER])
  ++ [Print (py "--- Smart Downloader (CRS: " ++ CRS ++ py ") ---");
      Print (py "--- Auto-downloading layers under "
             ++ str_Z LARGE_LAYER_THRESHOLD ++ py " features ---");
      Get catalog_request].


(** The request of [simple_download]. *)
Definition simple_request (layer_url : pystr) : Request :=
  {| url := layer_url ++ py "/query"; params := simple_params |}.

Definition attempting_line : pystr :=
  py "      -> Attempting simple download (no count available)...".
Definition fail_line : pystr :=
  py "      [FAIL] Download resulted in empty file.".
Definition success_line (filepath : pystr) : pystr :=
  py "      [SUCCESS] Saved to: " ++ filepath.
Definition scan_error_line (s_name e : pystr) : pystr :=
  py "Error scanning service " ++ s_name ++ py ": " ++ e.

(** The root of the REST services of the server. *)
Definition services_root : pystr :=
  py "https://gis.unocha.org/server/rest/services/".

(** The progress reports among the events: features so far and expected
    total. *)
Definition progress_of (evs : list Event) : list (nat * nat) :=
  omap (fun e => match e with Progress d t => Some (d, t) | _ => None end) evs.

(** The number of pauses among the events. *)
Definition pauses_of (evs : list Event) : nat :=
  length (omap (fun e => match e with Sleep100ms => Some tt | _ => None end)
               evs).

(** The folders created, in order. *)
Definition makedirs_of (evs : list Event) : list pystr :=
  omap (fun e => match e with MakeDirs d => Some d | _ => None end) evs.

(** A reply from which [simple_download] obtains a document with at least
    one feature. *)
Definition has_features (reply : Reply) : Prop :=
  exists d fs, reply = Answered {| status_code := 200; body := Json d |}
               /\ features d = Some (Some fs) /\ fs <> [].

(** A file write whose content is the serialisation of a result with at
    least one feature. *)
Definition nonempty_save_event (e : Event) : Prop :=
  match e with
  | Save _ c => exists g, c = json_dump g /\ features_of g <> []
  | _ => True
  end.

(** A request below the services root. *)
Definition rooted_request_event (e : Event) : Prop :=
  match e with
  | Get r => startswith services_root (url r) = true
  | _ => True
  end.

Definition not_makedirs (e : Event) : Prop :=
  match e with MakeDirs _ => False | _ => True end.

(** A chunk request that ended in an exception. *)
Definition chunk_raised (reply : Reply) : bool :=
  match chunk_exception reply with
  | Some _ => true
  | None => false
  end.

(** The feature counts after each successful chunk, starting from [acc]. *)
Fixpoint running_counts (acc : nat) (replies : list Reply) : list nat :=
  match replies with
  | [] => []
  | r :: rs =>
      if chunk_ok r
      then (acc + length (returned_features r))
           :: running_counts (acc + length (returned_features r)) rs
      else running_counts acc rs
  end.

(** ** Properties *)

(** *** Running computations *)

Lemma run_bind {A B} (m : M A) (f : A -> M B) (w : World) :
  (m ≫= f) w =
  match m w with
  | (Ok a, w1, e1) => let '(r, w2, e2) := f a w1 in (r, w2, e1 ++ e2)
  | (Exn x, w1, e1) => (Exn x, w1, e1)
  end.
Proof. reflexivity. Qed.

Lemma run_bind_ok {A B} (m : M A) (f : A -> M B) w a w1 e1 :
  m w = (Ok a, w1, e1) ->
  (m ≫= f) w = ((f a w1).1.1, (f a w1).1.2, e1 ++ (f a w1).2).
Proof. intros H. rewrite run_bind, H. by destruct (f a w1) as [[? ?] ?]. Qed.

(** *** [range] *)

Lemma div_up_bounds a b : 0 < b -> a <= b * div_up a b < a + b.
Proof.
  intros Hb. unfold div_up.
  pose proof (Nat.div_mod_eq (a + b - 1) b) as E.
  pose proof (Nat.mod_upper_bound (a + b - 1) b ltac:(lia)) as U.
  nia.
Qed.

Lemma div_up_unique a b n : 0 < b -> a <= b * n < a + b -> n = div_up a b.
Proof.
  intros Hb Hn. pose proof (div_up_bounds a b Hb). nia.
Qed.

Lemma range_from_eq fuel i stop step :
  0 < step -> stop - i <= fuel ->
  range_from fuel i stop step =
  map (fun k => i + k * step) (seq 0 (div_up (stop - i) step)).
Proof.
  intros Hs. revert i. induction fuel as [|f IH]; intros i Hf; simpl.
  - replace (stop - i) with 0 by lia.
    rewrite <- (div_up_unique 0 step 0) by lia. done.
  - destruct (Nat.ltb_spec i stop) as [Hlt|Hge].
    + rewrite IH by lia.
      assert (div_up (stop - i) step = S (div_up (stop - (i + step)) step)) as ->.
      { symmetry. apply div_up_unique; [done|].
        pose proof (div_up_bounds (stop - (i + step)) step Hs) as Hb.
        rewrite Nat.mul_succ_r.
        destruct (div_up (stop - (i + step)) step) as [|x]; [lia|].
        rewrite Nat.mul_succ_r in *. lia. }
      rewrite <- cons_seq, <- seq_shift, map_cons, map_map. f_equal; [lia|].
      apply map_ext. intros k. lia.
    + replace (stop - i) with 0 by lia.
      rewrite <- (div_up_unique 0 step 0) by lia. done.
Qed.

Lemma range_eq n step :
  0 < step -> range 0 n step = map (fun k => k * step) (seq 0 (div_up n step)).
Proof.
  intros Hs. unfold range. rewrite range_from_eq by lia.
  rewrite Nat.sub_0_r. done.
Qed.

Lemma length_range n step : 0 < step -> length (range 0 n step) = div_up n step.
Proof. intros Hs. by rewrite range_eq, length_map, length_seq. Qed.

(** *** The windows of an identifier list *)

Lemma chunk_size_pos : 0 < chunk_size.
Proof. unfold chunk_size. lia. Qed.

Lemma chunks_eq (all_ids : list Z) :
  chunks all_ids =
  map (fun k => chunk_of all_ids (k * chunk_size))
      (seq 0 (div_up (length all_ids) chunk_size)).
Proof.
  unfold chunks. rewrite range_eq by apply chunk_size_pos. by rewrite map_map.
Qed.



Lemma concat_windows (l : list Z) (step n : nat) :
  concat (map (fun k => take step (drop (k * step) l)) (seq 0 n))
  = take (n * step) l.
Proof.
  induction n as [|n IH]; [done|].
  rewrite seq_S, map_app, concat_app, IH. simpl. rewrite app_nil_r.
  rewrite take_take_drop. f_equal. lia.
Qed.

Lemma concat_chunks (all_ids : list Z) : concat (chunks all_ids) = all_ids.
Proof.
  rewrite chunks_eq. unfold chunk_of. rewrite concat_windows.
  apply take_ge.
  pose proof (div_up_bounds (length all_ids) chunk_size chunk_size_pos). lia.
Qed.

(** *** One chunk request *)

Lemma download_chunk_run layer_url all_ids total_count all_features i w :
  let reply := remote (calls w) (chunk_request layer_url (chunk_of all_ids i)) in
  download_chunk layer_url all_ids total_count all_features i w =
  (Ok (all_features ++ returned_features reply), tick w,
   chunk_events layer_url all_ids total_count all_features i reply).
Proof.
  intros reply. subst reply.
  unfold download_chunk, try_except, requests_get, chunk_events.
  rewrite run_bind. unfold chunk_request, chunk_of.
  destruct (remote _ _) as [e|[c [e|d]]]; simpl.
  - by rewrite app_nil_r.
  - destruct (c =? 200)%Z; simpl; by rewrite app_nil_r.
  - destruct (c =? 200)%Z.
    + unfold mbind, M_bind, json, iterate, sleep, emit, raise.
      cbn [body status_code]. unfold mret, M_ret.
      destruct (get_default (features d) []) as [fs|]; simpl;
        [done|by rewrite app_nil_r].
    + destruct (get_default (features d) []) as [fs|]; simpl;
        by rewrite app_nil_r.
Qed.

(** *** The loop over the chunks *)

Lemma advanced_tick n w w' : advanced n (tick w) w' -> advanced (S n) w w'.
Proof. unfold advanced, tick. simpl. intros (?&?&?&?). repeat split; auto; lia. Qed.

Lemma chunk_loop_run layer_url all_ids total_count offs acc w :
  let replies :=
    imap (fun k i => remote (calls w + k)
                       (chunk_request layer_url (chunk_of all_ids i))) offs in
  exists w' evs,
    for_fold offs (download_chunk layer_url all_ids total_count) acc w
    = (Ok (acc ++ concat (map returned_features replies)), w', evs)
    /\ advanced (length offs) w w'
    /\ requests_of evs
       = map (fun i => chunk_request layer_url (chunk_of all_ids i)) offs
    /\ prints_of evs
       = omap (fun p => batch_error_line p.1 <$> chunk_exception p.2)
              (zip offs replies)
    /\ prompts_of evs = [] /\ saves_of evs = [].
Proof.
  revert acc w. induction offs as [|i offs IH]; intros acc w replies.
  - exists w, []. simpl. rewrite app_nil_r. by repeat split.
  - subst replies. rewrite imap_cons. simpl for_fold.
    pose proof (download_chunk_run layer_url all_ids total_count acc i w) as Hs.
    simpl in Hs. rewrite Nat.add_0_r.
    set (reply := remote (calls w) _) in *.
    destruct (IH (acc ++ returned_features reply) (tick w))
      as (w' & evs & Hrun & Hadv & Hreq & Hpr & Hin & Hsv).
    rewrite (imap_ext _ (fun k i0 => remote (calls (tick w) + k)
               (chunk_request layer_url (chunk_of all_ids i0)))) by
      (intros; simpl; f_equal; lia).
    exists w', (chunk_events layer_url all_ids total_count acc i reply ++ evs).
    split.
    { erewrite run_bind_ok by exact Hs. rewrite Hrun. simpl.
      by rewrite <- app_assoc. }
    split; [by apply advanced_tick|].
    unfold requests_of, prints_of, prompts_of, saves_of in *.
    rewrite !omap_app, Hreq, Hpr, Hin, Hsv.
    unfold chunk_events. simpl.
    destruct (chunk_exception reply) as [e|]; simpl;
      [|destruct (chunk_ok reply)]; by repeat split.
Qed.

(** *** [download_in_chunks] *)

Lemma download_in_chunks_run layer_url all_ids total_count w :
  let offs := range 0 total_count chunk_size in
  let replies :=
    imap (fun k i => remote (calls w + k)
                       (chunk_request layer_url (chunk_of all_ids i))) offs in
  exists w' evs,
    download_in_chunks layer_url all_ids total_count w
    = (Ok (FeatureCollection (concat (map returned_features replies))), w',
       Print (downloading_line total_count) :: evs ++ [Print []])
    /\ advanced (length offs) w w'
    /\ requests_of evs
       = map (fun i => chunk_request layer_url (chunk_of all_ids i)) offs
    /\ prints_of evs
       = omap (fun p => batch_error_line p.1 <$> chunk_exception p.2)
              (zip offs replies)
    /\ prompts_of evs = [] /\ saves_of evs = [].
Proof.
  intros offs replies.
  destruct (chunk_loop_run layer_url all_ids total_count offs [] w)
    as (w' & evs & Hrun & Hrest).
  exists w', evs. split; [|exact Hrest].
  unfold download_in_chunks. fold offs.
  rewrite run_bind. unfold print at 1, emit at 1.
  rewrite run_bind, Hrun. reflexivity.
Qed.

Lemma chunk_replies_eq layer_url all_ids n0 :
  chunk_replies layer_url all_ids n0 =
  imap (fun k i => remote (n0 + k)
                     (chunk_request layer_url (chunk_of all_ids i)))
       (range 0 (length all_ids) chunk_size).
Proof. unfold chunk_replies, chunks. by rewrite imap_fmap. Qed.


(** *** Failed chunks *)

Lemma range_lookup n step k :
  0 < step -> k < div_up n step -> range 0 n step !! k = Some (k * step).
Proof.
  intros Hs Hk. rewrite range_eq by done.
  rewrite list_lookup_fmap, lookup_seq_lt by done. reflexivity.
Qed.

Lemma failed_chunk_returns_nothing (reply : Reply) :
  chunk_ok reply = false -> returned_features reply = [].
Proof.
  destruct reply as [e|[c [e|d]]]; simpl; try done.
  destruct (get_default (features d) []); [by intros ->|].
  by destruct (c =? 200)%Z.
Qed.

Lemma concat_returned_ok (replies : list Reply) :
  concat (map returned_features replies)
  = concat (map returned_features (List.filter chunk_ok replies)).
Proof.
  induction replies as [|r rs IH]; [done|]. simpl.
  destruct (chunk_ok r) eqn:E; simpl; [by rewrite IH|].
  by rewrite failed_chunk_returns_nothing, IH.
Qed.

(** C6, as the script has it.  In a chunked download, a chunk request that
    ends in an exception is logged on the console; whether it failed by an
    exception or by a status other than 200, a failed chunk contributes no
    feature, the result holds the features of the successful chunks, every
    chunk is requested exactly once in order, and the download returns its
    FeatureCollection. *)
Theorem failed_chunk_is_skipped
    (layer_url : pystr) (all_ids : list Z) (w : World)
    (k : nat) (reply : Reply) :
  let run := download_in_chunks layer_url all_ids (length all_ids) w in
  let replies := chunk_replies layer_url all_ids (calls w) in
  replies !! k = Some reply ->
  chunk_ok reply = false ->
  (forall e, chunk_exception reply = Some e ->
             In (batch_error_line (k * chunk_size) e) (prints_of (events run))) /\
  returned_features reply = [] /\
  outcome run
  = Ok (FeatureCollection
          (concat (map returned_features (List.filter chunk_ok replies)))) /\
  requests_of (events run) = map (chunk_request layer_url) (chunks all_ids).
Proof.
  intros run replies Hk Hfail.
  destruct (download_in_chunks_run layer_url all_ids (length all_ids) w)
    as (w' & evs & Hrun & _ & Hreq & Hpr & _).
  subst run replies. rewrite chunk_replies_eq in *. rewrite Hrun.
  unfold events, outcome. simpl.
  split; [|split; [|split]].
  - intros e He. right. unfold prints_of in *.
    rewrite omap_app, Hpr. apply in_or_app. left.
    apply list_elem_of_In, list_elem_of_omap.
    exists (k * chunk_size, reply). split; [|by simpl; rewrite He].
    apply (list_elem_of_lookup_2 _ k), lookup_zip_Some. split; [|done].
    apply range_lookup; [apply chunk_size_pos|].
    apply lookup_lt_Some in Hk.
    by rewrite length_imap, length_range in Hk by apply chunk_size_pos.
  - by apply failed_chunk_returns_nothing.
  - by rewrite <- concat_returned_ok.
  - unfold requests_of in *. rewrite omap_app, Hreq. simpl.
    rewrite app_nil_r. unfold chunks. by rewrite map_map.
Qed.

(** *** Complete downloads *)

Lemma returned_total (cs : list (list Z)) (replies : list Reply) :
  Forall2 (fun c r => chunk_ok r = true
                      /\ length (returned_features r) = length c) cs replies ->
  length (concat (map returned_features replies)) = length (concat cs).
Proof.
  induction 1 as [|c r cs rs [_ Hlen] _ IH]; [done|].
  simpl. by rewrite !length_app, Hlen, IH.
Qed.

(** C7.  When every chunk request of a chunked download succeeds and its
    reply carries as many features as identifiers were requested, the
    number of downloaded features is the number of object identifiers. *)
Theorem complete_download_count
    (layer_url : pystr) (all_ids : list Z) (w : World) :
  let run := download_in_chunks layer_url all_ids (length all_ids) w in
  Forall2 (fun c r => chunk_ok r = true
                      /\ length (returned_features r) = length c)
          (chunks all_ids) (chunk_replies layer_url all_ids (calls w)) ->
  feature_count (outcome run) = length all_ids.
Proof.
  intros run Hall.
  destruct (download_in_chunks_run layer_url all_ids (length all_ids) w)
    as (w' & evs & Hrun & _).
  subst run. rewrite chunk_replies_eq in Hall. rewrite Hrun. simpl.
  rewrite (returned_total _ _ Hall). by rewrite concat_chunks.
Qed.

(** *** Reasoning about the events of composed computations *)

Section Emits.
Variable P : Event -> Prop.

Lemma emits_ret {A} (a : A) : emits P (mret a).
Proof. intros w. constructor. Qed.

Lemma emits_raise {A} (e : pystr) : emits P (@raise A e).
Proof. intros w. constructor. Qed.

Lemma emits_emit (e : Event) : P e -> emits P (emit e).
Proof. intros H w. by repeat constructor. Qed.

Lemma emits_bind {A B} (m : M A) (f : A -> M B) :
  emits P m -> (forall a, emits P (f a)) -> emits P (m ≫= f).
Proof.
  intros Hm Hf w. specialize (Hm w). unfold events in *. rewrite run_bind.
  destruct (m w) as [[[a|x] w1] e1]; [|done].
  specialize (Hf a w1). unfold events in Hf.
  destruct (f a w1) as [[r w2] e2]. simpl in *. by apply Forall_app.
Qed.

Lemma emits_bind_ok {A B} (m : M A) (f : A -> M B) :
  emits P m -> (forall w a, outcome (m w) = Ok a -> emits P (f a)) ->
  emits P (m ≫= f).
Proof.
  intros Hm Hf w. specialize (Hm w). specialize (Hf w).
  unfold events, outcome in *. rewrite run_bind.
  destruct (m w) as [[[a|x] w1] e1]; [|done].
  specialize (Hf a eq_refl w1). unfold events in Hf.
  destruct (f a w1) as [[r w2] e2]. simpl in *. by apply Forall_app.
Qed.

Lemma emits_try {A} (m : M A) (h : pystr -> M A) :
  emits P m -> (forall e, emits P (h e)) -> emits P (try_except m h).
Proof.
  intros Hm Hh w. specialize (Hm w). unfold events, try_except in *.
  destruct (m w) as [[[a|x] w1] e1]; [done|].
  specialize (Hh x w1). unfold events in Hh.
  destruct (h x w1) as [[r w2] e2]. simpl in *. by apply Forall_app.
Qed.

Lemma emits_for_each {A} (xs : list A) (body : A -> M unit) :
  (forall x, emits P (body x)) -> emits P (for_each xs body).
Proof.
  intros Hb. induction xs as [|x xs IH]; simpl.
  - apply emits_ret.
  - apply emits_bind; auto.
Qed.

Lemma emits_for_each_In {A} (xs : list A) (body : A -> M unit) :
  (forall x, In x xs -> emits P (body x)) -> emits P (for_each xs body).
Proof.
  induction xs as [|x xs IH]; intros Hb; simpl.
  - apply emits_ret.
  - apply emits_bind; [apply Hb; by left|].
    intros _. apply IH. intros y Hy. apply Hb. by right.
Qed.

Lemma emits_for_fold {A S} (xs : list A) (body : S -> A -> M S) (s : S) :
  (forall s x, emits P (body s x)) -> emits P (for_fold xs body s).
Proof.
  intros Hb. revert s. induction xs as [|x xs IH]; intros s; simpl.
  - apply emits_ret.
  - apply emits_bind; auto.
Qed.

Lemma emits_requests_get u ps :
  P (Get {| url := u; params := ps |}) -> emits P (requests_get u ps).
Proof.
  intros H w. unfold events, requests_get.
  destruct (remote _ _); by repeat constructor.
Qed.

Lemma emits_json r : emits P (json r).
Proof. unfold json. destruct (body r); [apply emits_raise|apply emits_ret]. Qed.

Lemma emits_write_file path content :
  P (Save path content) -> emits P (write_file path content).
Proof.
  intros H w. unfold events, write_file.
  destruct (open_error path); by repeat constructor.
Qed.

Lemma emits_read_choice prompt lines :
  P (Input prompt) -> Forall P (read_choice prompt lines).2.
Proof.
  intros H. induction lines as [|line rest IH]; simpl; [by repeat constructor|].
  destruct (is_choice _); [by repeat constructor|].
  destruct (read_choice prompt rest) as [[r rest'] evs]. by constructor.
Qed.

Lemma emits_confirm prompt : P (Input prompt) -> emits P (confirm prompt).
Proof.
  intros H w. unfold events, confirm.
  pose proof (emits_read_choice prompt (stdin w) H) as Hr.
  by destruct (read_choice prompt (stdin w)) as [[r rest'] evs].
Qed.

Lemma emits_ensure_folder d : P (MakeDirs d) -> emits P (ensure_folder d).
Proof.
  intros H w. unfold events, ensure_folder.
  destruct (folder_exists w); by repeat constructor.
Qed.

End Emits.

(** Splits a goal [emits P m] along the structure of [m]; what is left are
    the conditions [P e] on the single events. *)
Ltac emits_step :=
  match goal with
  | |- emits _ (mret _) => apply emits_ret
  | |- emits _ (raise _) => apply emits_raise
  | |- emits _ (_ ≫= _) => apply emits_bind; [|intros ?]
  | |- emits _ (try_except _ _) => apply emits_try; [|intros ?]
  | |- emits _ (for_each _ _) => apply emits_for_each; intros ?
  | |- emits _ (for_fold _ _ _) => apply emits_for_fold; intros ? ?
  | |- emits _ (requests_get _ _) => apply emits_requests_get
  | |- emits _ (iterate _) => unfold iterate
  | |- emits _ (getitem _ _) => unfold getitem
  | |- emits _ (len_features _) => unfold len_features
  | |- emits _ (json _) => apply emits_json
  | |- emits _ (write_file _ _) => apply emits_write_file
  | |- emits _ (confirm _) => apply emits_confirm
  | |- emits _ (ensure_folder _) => apply emits_ensure_folder
  | |- emits _ sleep => apply emits_emit
  | |- emits _ (print _) => apply emits_emit
  | |- emits _ (emit _) => apply emits_emit
  | |- emits _ (if ?b then _ else _) => destruct b
  | |- emits _ (match ?x with _ => _ end) => destruct x
  | |- emits _ (let '(_, _) := ?x in _) => destruct x
  end.

Ltac emits_auto := repeat emits_step.

(** *** Computations that do not look at the download folder *)

Lemma blind_ret {A} (a : A) : folder_blind (mret a).
Proof. intros w1 w2 H. by repeat split; try apply H. Qed.

Lemma blind_raise {A} (e : pystr) : folder_blind (@raise A e).
Proof. intros w1 w2 H. by repeat split; try apply H. Qed.

Lemma blind_emit (e : Event) : folder_blind (emit e).
Proof. intros w1 w2 H. by repeat split; try apply H. Qed.

Lemma blind_bind {A B} (m : M A) (f : A -> M B) :
  folder_blind m -> (forall a, folder_blind (f a)) -> folder_blind (m ≫= f).
Proof.
  intros Hm Hf w1 w2 H. specialize (Hm w1 w2 H).
  unfold outcome, events, world_after in *. rewrite !run_bind.
  destruct (m w1) as [[r1 v1] e1], (m w2) as [[r2 v2] e2]. simpl in Hm.
  destruct Hm as (-> & -> & Hv). destruct r2 as [a|x]; [|done].
  specialize (Hf a v1 v2 Hv). unfold outcome, events, world_after in Hf.
  destruct (f a v1) as [[r1' v1'] e1'], (f a v2) as [[r2' v2'] e2'].
  simpl in *. destruct Hf as (-> & -> & Hv'). done.
Qed.

Lemma blind_try {A} (m : M A) (h : pystr -> M A) :
  folder_blind m -> (forall e, folder_blind (h e)) ->
  folder_blind (try_except m h).
Proof.
  intros Hm Hh w1 w2 H. specialize (Hm w1 w2 H).
  unfold outcome, events, world_after, try_except in *.
  destruct (m w1) as [[r1 v1] e1], (m w2) as [[r2 v2] e2]. simpl in Hm.
  destruct Hm as (-> & -> & Hv). destruct r2 as [a|x]; [done|].
  specialize (Hh x v1 v2 Hv). unfold outcome, events, world_after in Hh.
  destruct (h x v1) as [[r1' v1'] e1'], (h x v2) as [[r2' v2'] e2'].
  simpl in *. destruct Hh as (-> & -> & Hv'). done.
Qed.

Lemma blind_for_each {A} (xs : list A) (body : A -> M unit) :
  (forall x, folder_blind (body x)) -> folder_blind (for_each xs body).
Proof.
  intros Hb. induction xs as [|x xs IH]; simpl.
  - apply blind_ret.
  - apply blind_bind; auto.
Qed.

Lemma blind_for_fold {A S} (xs : list A) (body : S -> A -> M S) (s : S) :
  (forall s x, folder_blind (body s x)) -> folder_blind (for_fold xs body s).
Proof.
  intros Hb. revert s. induction xs as [|x xs IH]; intros s; simpl.
  - apply blind_ret.
  - apply blind_bind; auto.
Qed.

Lemma blind_requests_get u ps : folder_blind (requests_get u ps).
Proof.
  intros w1 w2 H. unfold outcome, events, world_after, requests_get.
  destruct H as [Hc Hs]. rewrite Hc.
  destruct (remote _ _); simpl; repeat split; simpl; congruence.
Qed.

Lemma blind_json r : folder_blind (json r).
Proof. unfold json. destruct (body r); [apply blind_raise|apply blind_ret]. Qed.

Lemma blind_write_file path content : folder_blind (write_file path content).
Proof.
  intros w1 w2 H. unfold outcome, events, world_after, write_file.
  destruct H as [Hc Hs].
  destruct (open_error path); simpl; repeat split; simpl; congruence.
Qed.

Lemma blind_confirm prompt : folder_blind (confirm prompt).
Proof.
  intros w1 w2 H. unfold outcome, events, world_after, confirm.
  destruct H as [Hc Hs]. rewrite Hs.
  destruct (read_choice prompt (stdin w2)) as [[r rest] evs].
  simpl; repeat split; simpl; congruence.
Qed.

Ltac blind_step :=
  match goal with
  | |- folder_blind (mret _) => apply blind_ret
  | |- folder_blind (raise _) => apply blind_raise
  | |- folder_blind (_ ≫= _) => apply blind_bind; [|intros ?]
  | |- folder_blind (try_except _ _) => apply blind_try; [|intros ?]
  | |- folder_blind (for_each _ _) => apply blind_for_each; intros ?
  | |- folder_blind (for_fold _ _ _) => apply blind_for_fold; intros ? ?
  | |- folder_blind (requests_get _ _) => apply blind_requests_get
  | |- folder_blind (iterate _) => unfold iterate
  | |- folder_blind (getitem _ _) => unfold getitem
  | |- folder_blind (len_features _) => unfold len_features
  | |- folder_blind (json _) => apply blind_json
  | |- folder_blind (write_file _ _) => apply blind_write_file
  | |- folder_blind (confirm _) => apply blind_confirm
  | |- folder_blind sleep => apply blind_emit
  | |- folder_blind (print _) => apply blind_emit
  | |- folder_blind (emit _) => apply blind_emit
  | |- folder_blind (if ?b then _ else _) => destruct b
  | |- folder_blind (match ?x with _ => _ end) => destruct x
  end.

(** *** Computations whose file writes are all reported *)

Lemma apply_saves_app svs1 svs2 fs :
  apply_saves (svs1 ++ svs2) fs = apply_saves svs2 (apply_saves svs1 fs).
Proof.
  revert fs. induction svs1 as [|[p c] svs1 IH]; intros fs; simpl; [done|].
  apply IH.
Qed.

Lemma lookup_apply_saves svs fs q :
  apply_saves svs fs !! q =
  match last_write q svs with
  | Some c => Some c
  | None => fs !! q
  end.
Proof.
  revert fs. induction svs as [|[p c] svs IH]; intros fs; simpl; [done|].
  rewrite IH. destruct (last_write q svs); [done|].
  destruct (decide (p = q)) as [->|Hne].
  - by rewrite lookup_insert_eq.
  - by rewrite lookup_insert_ne.
Qed.

Lemma apply_saves_idem svs fs :
  apply_saves svs (apply_saves svs fs) = apply_saves svs fs.
Proof.
  apply map_eq. intros q. rewrite !lookup_apply_saves.
  by destruct (last_write q svs).
Qed.

Lemma tracks_ret {A} (a : A) : tracks_files (mret a).
Proof. intros w. done. Qed.

Lemma tracks_raise {A} (e : pystr) : tracks_files (@raise A e).
Proof. intros w. done. Qed.

Lemma tracks_emit (e : Event) :
  match e with Save _ _ => False | _ => True end -> tracks_files (emit e).
Proof. intros H w. by destruct e. Qed.

Lemma tracks_bind {A B} (m : M A) (f : A -> M B) :
  tracks_files m -> (forall a, tracks_files (f a)) -> tracks_files (m ≫= f).
Proof.
  intros Hm Hf w. specialize (Hm w).
  unfold events, world_after in *. rewrite run_bind.
  destruct (m w) as [[[a|x] w1] e1]; [|done].
  specialize (Hf a w1). unfold events, world_after in Hf.
  destruct (f a w1) as [[r w2] e2]. simpl in *.
  unfold saves_of in *. by rewrite omap_app, apply_saves_app, <- Hm.
Qed.

Lemma tracks_try {A} (m : M A) (h : pystr -> M A) :
  tracks_files m -> (forall e, tracks_files (h e)) ->
  tracks_files (try_except m h).
Proof.
  intros Hm Hh w. specialize (Hm w).
  unfold events, world_after, try_except in *.
  destruct (m w) as [[[a|x] w1] e1]; [done|].
  specialize (Hh x w1). unfold events, world_after in Hh.
  destruct (h x w1) as [[r w2] e2]. simpl in *.
  unfold saves_of in *. by rewrite omap_app, apply_saves_app, <- Hm.
Qed.

Lemma tracks_for_each {A} (xs : list A) (body : A -> M unit) :
  (forall x, tracks_files (body x)) -> tracks_files (for_each xs body).
Proof.
  intros Hb. induction xs as [|x xs IH]; simpl.
  - apply tracks_ret.
  - apply tracks_bind; auto.
Qed.

Lemma tracks_for_fold {A S} (xs : list A) (body : S -> A -> M S) (s : S) :
  (forall s x, tracks_files (body s x)) -> tracks_files (for_fold xs body s).
Proof.
  intros Hb. revert s. induction xs as [|x xs IH]; intros s; simpl.
  - apply tracks_ret.
  - apply tracks_bind; auto.
Qed.

Lemma tracks_requests_get u ps : tracks_files (requests_get u ps).
Proof.
  intros w. unfold events, world_after, requests_get.
  by destruct (remote _ _).
Qed.

Lemma tracks_json r : tracks_files (json r).
Proof. unfold json. destruct (body r); [apply tracks_raise|apply tracks_ret]. Qed.

Lemma tracks_write_file path content : tracks_files (write_file path content).
Proof.
  intros w. unfold events, world_after, write_file.
  by destruct (open_error path).
Qed.

Lemma saves_of_none evs :
  Forall (fun e => match e with Save _ _ => False | _ => True end) evs ->
  saves_of evs = [].
Proof.
  induction 1 as [|e evs He _ IH]; [done|].
  destruct e; try done; exact IH.
Qed.

Lemma tracks_confirm prompt : tracks_files (confirm prompt).
Proof.
  intros w. unfold events, world_after, confirm.
  pose proof (emits_read_choice
    (fun e => match e with Save _ _ => False | _ => True end)
    prompt (stdin w) I) as Hr.
  destruct (read_choice prompt (stdin w)) as [[r rest] evs].
  cbn [fst snd] in *. cbn beta iota. cbn [fst snd].
  rewrite (saves_of_none evs Hr). done.
Qed.

Lemma tracks_ensure_folder d : tracks_files (ensure_folder d).
Proof.
  intros w. unfold events, world_after, ensure_folder.
  by destruct (folder_exists w).
Qed.

Ltac tracks_step :=
  match goal with
  | |- tracks_files (mret _) => apply tracks_ret
  | |- tracks_files (raise _) => apply tracks_raise
  | |- tracks_files (_ ≫= _) => apply tracks_bind; [|intros ?]
  | |- tracks_files (try_except _ _) => apply tracks_try; [|intros ?]
  | |- tracks_files (for_each _ _) => apply tracks_for_each; intros ?
  | |- tracks_files (for_fold _ _ _) => apply tracks_for_fold; intros ? ?
  | |- tracks_files (requests_get _ _) => apply tracks_requests_get
  | |- tracks_files (iterate _) => unfold iterate
  | |- tracks_files (getitem _ _) => unfold getitem
  | |- tracks_files (len_features _) => unfold len_features
  | |- tracks_files (json _) => apply tracks_json
  | |- tracks_files (write_file _ _) => apply tracks_write_file
  | |- tracks_files (confirm _) => apply tracks_confirm
  | |- tracks_files (ensure_folder _) => apply tracks_ensure_folder
  | |- tracks_files sleep => by apply tracks_emit
  | |- tracks_files (print _) => by apply tracks_emit
  | |- tracks_files (emit _) => by apply tracks_emit
  | |- tracks_files (if ?b then _ else _) => destruct b
  | |- tracks_files (match ?x with _ => _ end) => destruct x
  end.

(** The part of [main] after the folder check. *)
Lemma blind_check_layer clean_s_name service_url layer :
  folder_blind (check_layer clean_s_name service_url layer).
Proof.
  unfold check_layer, get_layer_ids, execute_download, download_in_chunks,
    download_chunk, simple_download.
  repeat blind_step.
Qed.

Lemma blind_visit_service service : folder_blind (visit_service service).
Proof.
  unfold visit_service, scan_service. repeat blind_step.
  apply blind_check_layer.
Qed.

Lemma tracks_check_layer clean_s_name service_url layer :
  tracks_files (check_layer clean_s_name service_url layer).
Proof.
  unfold check_layer, get_layer_ids, execute_download, download_in_chunks,
    download_chunk, simple_download.
  repeat tracks_step.
Qed.

Lemma tracks_main : tracks_files main.
Proof.
  unfold main, visit_service, scan_service. repeat tracks_step.
  all: apply tracks_check_layer.
Qed.

(** *** One layer *)

Lemma get_layer_ids_run layer_url w :
  get_layer_ids layer_url w =
  (Ok (ids_result (remote (calls w) (ids_request layer_url))), tick w,
   [Get (ids_request layer_url)]).
Proof.
  unfold get_layer_ids, try_except, requests_get, ids_result, ids_request.
  rewrite run_bind.
  destruct (remote _ _) as [e|[c [e|d]]]; simpl; try done.
  - by destruct (c =? 200)%Z.
  - destruct (c =? 200)%Z; simpl; [|done].
    rewrite run_bind. unfold json. simpl. by destruct (objectIds d).
Qed.

Lemma ids_query_result layer_url w ids :
  ids_query_returns layer_url w ids ->
  ids_result (remote (calls w) (ids_request layer_url)) = (Some ids, None).
Proof. intros (d & -> & Hd). unfold ids_result. simpl. by rewrite Hd. Qed.

Ltac run_print :=
  rewrite run_bind; unfold print at 1, emit at 1; cbv beta iota.

Lemma read_choice_cases prompt lines :
  (Forall (fun l => is_choice (normalise l) = false) lines
   /\ read_choice prompt lines
      = (Exn eof_error, [],
         repeat (Input prompt) (S (length lines))))
  \/ (exists junk line rest,
        lines = junk ++ line :: rest
        /\ Forall (fun l => is_choice (normalise l) = false) junk
        /\ is_choice (normalise line) = true
        /\ read_choice prompt lines
           = (Ok (normalise line), rest,
              repeat (Input prompt) (S (length junk)))).
Proof.
  induction lines as [|l lines IH]; simpl.
  - left. by split.
  - fold (normalise l). destruct (is_choice (normalise l)) eqn:E.
    + right. exists [], l, lines. by repeat split.
    + destruct IH as [[Hall ->]|(junk & line & rest & -> & Hj & Hl & ->)].
      * left. split; [by constructor|done].
      * right. exists (l :: junk), line, rest. repeat split; try done.
        by constructor.
Qed.

Lemma read_choice_first prompt junk line rest :
  Forall (fun l => is_choice (normalise l) = false) junk ->
  is_choice (normalise line) = true ->
  read_choice prompt (junk ++ line :: rest)
  = (Ok (normalise line), rest, repeat (Input prompt) (S (length junk))).
Proof.
  intros Hj Hl. induction Hj as [|l junk Hl' _ IH]; simpl.
  - fold (normalise line). by rewrite Hl.
  - fold (normalise l). by rewrite Hl', IH.
Qed.

Lemma prompts_of_none evs : Forall not_input evs -> prompts_of evs = [].
Proof.
  induction 1 as [|e evs He _ IH]; [done|]. destruct e; try done; exact IH.
Qed.

Lemma download_in_chunks_quiet layer_url all_ids total_count :
  emits (fun e => not_input e /\ not_save e)
        (download_in_chunks layer_url all_ids total_count).
Proof.
  unfold download_in_chunks, download_chunk. repeat emits_step; by split.
Qed.

(** After the download, step 5 only saves the file and reports. *)
Lemma execute_download_chunked clean_s_name l_id l_name full_layer_url
    x l total_count w :
  exists r w' rest,
    execute_download clean_s_name l_id l_name full_layer_url true
      (Some (x :: l)) total_count w
    = (r, w',
       events (download_in_chunks full_layer_url (x :: l) total_count w)
       ++ rest)
    /\ Forall (fun e => not_input e /\ not_get e) rest
    /\ stdin w' = stdin w.
Proof.
  destruct (download_in_chunks_run full_layer_url (x :: l) total_count w)
    as (w1 & evs & Hrun & (_ & Hst & _) & _).
  unfold execute_download. rewrite run_bind, run_bind, Hrun.
  cbv beta iota. unfold events. cbn [snd].
  set (g := FeatureCollection _).
  change ((mret (Some g) : M _) w1) with (Ok (Some g), w1, @nil Event).
  cbv beta iota. rewrite app_nil_r. rewrite run_bind.
  change (len_features g w1)
    with (Ok (length (features_of g)), w1, @nil Event).
  cbv beta iota.
  destruct (0 <? length (features_of g)).
  - rewrite run_bind. unfold write_file.
    destruct (open_error _) as [e|].
    + eexists _, _, _. split; [reflexivity|]. simpl. by split.
    + cbv beta iota. unfold print, emit. eexists _, _, _.
      split; [reflexivity|]. simpl. split; [by repeat constructor|done].
  - unfold print, emit. eexists _, _, _.
    split; [reflexivity|]. simpl. split; [by repeat constructor|done].
Qed.

(** C2.  For a layer whose ID query succeeds: with no identifier the layer
    is skipped, the ID query being the only request and nothing being
    written; with at least one and at most 100000 identifiers no prompt is
    shown, standard input is left untouched, and the chunked download
    starts right after the size line. *)
Theorem small_layer_downloads_without_prompt
    (clean_s_name service_url : pystr) (layer : Layer) (ids : list Z)
    (w : World) :
  let full_layer_url := service_url ++ py "/" ++ str_Z (lyr_id layer) in
  let run := check_layer clean_s_name service_url layer w in
  ids_query_returns full_layer_url w ids ->
  (length ids = 0 ->
     events run = [Print (checking_line clean_s_name (lyr_name layer));
                   Get (ids_request full_layer_url);
                   Print empty_line]
     /\ outcome run = Ok tt /\ files (world_after run) = files w)
  /\ (0 < length ids ->
      (Z.of_nat (length ids) <= LARGE_LAYER_THRESHOLD)%Z ->
      prompts_of (events run) = []
      /\ stdin (world_after run) = stdin w
      /\ exists rest,
          events run
          = [Print (checking_line clean_s_name (lyr_name layer));
             Get (ids_request full_layer_url);
             Print (auto_line (length ids))]
            ++ events (download_in_chunks full_layer_url ids (length ids)
                         (tick w))
            ++ rest).
Proof.
  intros full_layer_url run Hids.
  apply ids_query_result in Hids.
  split.
  - intros Hz.
    assert (run = (Ok tt, tick w,
                   [Print (checking_line clean_s_name (lyr_name layer));
                    Get (ids_request full_layer_url); Print empty_line]))
      as ->; [|done].
    subst run. unfold check_layer. fold full_layer_url.
    run_print. rewrite run_bind, get_layer_ids_run, Hids. cbv beta iota.
    by rewrite Hz.
  - intros Hpos Hle.
    destruct ids as [|x l]; [simpl in Hpos; lia|].
    destruct (execute_download_chunked clean_s_name (lyr_id layer)
                (lyr_name layer) full_layer_url x l (length (x :: l)) (tick w))
      as (r & w' & rest & Hex & Hrest & Hst).
    assert (run = (r, w',
                   [Print (checking_line clean_s_name (lyr_name layer));
                    Get (ids_request full_layer_url);
                    Print (auto_line (length (x :: l)))]
                   ++ events (download_in_chunks full_layer_url (x :: l)
                                (length (x :: l)) (tick w))
                   ++ rest))
      as ->.
    { subst run. unfold check_layer. fold full_layer_url.
      run_print. rewrite run_bind, get_layer_ids_run, Hids. cbv beta iota.
      destruct (Nat.eqb_spec (length (x :: l)) 0) as [?|_]; [done|].
      destruct (Z.ltb_spec LARGE_LAYER_THRESHOLD (Z.of_nat (length (x :: l))))
        as [?|_]; [lia|].
      rewrite run_bind. run_print.
      change ((mret true : M bool) (tick w)) with (Ok true, tick w, @nil Event).
      cbv beta iota. by rewrite Hex. }
    unfold events at 1 2, world_after. cbn [fst snd].
    split; [|split; [exact Hst|by exists rest]].
    apply prompts_of_none. repeat apply Forall_app_2.
    + by repeat constructor.
    + eapply Forall_impl;
        [apply (download_in_chunks_quiet full_layer_url (x :: l)
                  (length (x :: l)) (tick w))|].
      by intros e [? _].
    + eapply Forall_impl; [exact Hrest|]. by intros e [? _].
Qed.

(** *** The confirmation prompts *)

Lemma str_eq_true a b : str_eq a b = true <-> a = b.
Proof. unfold str_eq. apply bool_decide_eq_true. Qed.

Lemma is_choice_true c : is_choice c = true <-> c = py "y" \/ c = py "n".
Proof.
  unfold is_choice. rewrite orb_true_iff, !str_eq_true. done.
Qed.

Lemma execute_download_no_prompt clean_s_name l_id l_name full_layer_url
    should_download ids total_count :
  emits not_input
    (execute_download clean_s_name l_id l_name full_layer_url
       should_download ids total_count).
Proof.
  unfold execute_download, download_in_chunks, download_chunk,
    simple_download.
  repeat emits_step; done.
Qed.

Lemma execute_download_false clean_s_name l_id l_name full_layer_url
    ids total_count w :
  execute_download clean_s_name l_id l_name full_layer_url false ids
    total_count w = (Ok tt, w, []).
Proof. reflexivity. Qed.

(** A layer above the threshold: the prompt loop decides. *)
Lemma check_layer_large_run clean_s_name service_url layer ids w :
  let full_layer_url := service_url ++ py "/" ++ str_Z (lyr_id layer) in
  let pre := [Print (checking_line clean_s_name (lyr_name layer));
              Get (ids_request full_layer_url);
              Print (large_line (length ids))] in
  ids_query_returns full_layer_url w ids ->
  (LARGE_LAYER_THRESHOLD < Z.of_nat (length ids))%Z ->
  check_layer clean_s_name service_url layer w =
  match read_choice large_prompt (stdin w) with
  | (Ok choice, rest, evs) =>
      if str_eq choice (py "y") then
        let '(r, w', evs') :=
          execute_download clean_s_name (lyr_id layer) (lyr_name layer)
            full_layer_url true (Some ids) (length ids)
            (set_stdin rest (tick w)) in
        (r, w', pre ++ evs ++ evs')
      else (Ok tt, set_stdin rest (tick w), pre ++ evs ++ [Print skipped_line])
  | (Exn e, rest, evs) => (Exn e, set_stdin rest (tick w), pre ++ evs)
  end.
Proof.
  intros full_layer_url pre Hids Hbig. subst pre.
  apply ids_query_result in Hids.
  unfold check_layer. fold full_layer_url.
  run_print. rewrite run_bind, get_layer_ids_run, Hids. cbv beta iota.
  destruct (Nat.eqb_spec (length ids) 0) as [Hz|_].
  { rewrite Hz in Hbig. unfold LARGE_LAYER_THRESHOLD in Hbig. lia. }
  destruct (Z.ltb_spec LARGE_LAYER_THRESHOLD (Z.of_nat (length ids)))
    as [_|?]; [|lia].
  rewrite run_bind. run_print. rewrite run_bind. unfold confirm at 1.
  change (stdin (tick w)) with (stdin w).
  destruct (read_choice large_prompt (stdin w)) as [[[choice|e] rest] evs];
    cbv beta iota; [|done].
  destruct (str_eq choice (py "y")).
  - change ((mret true : M bool) (set_stdin rest (tick w)))
      with (Ok true, set_stdin rest (tick w), @nil Event).
    cbv beta iota.
    destruct (execute_download _ _ _ _ _ _ _ _) as [[r w'] evs'].
    by rewrite app_nil_r.
  - run_print.
    change ((mret false : M bool) (set_stdin rest (tick w)))
      with (Ok false, set_stdin rest (tick w), @nil Event).
    cbv beta iota. by rewrite execute_download_false, app_nil_r.
Qed.

(** A layer of unknown size: the prompt loop decides. *)
Lemma check_layer_unknown_run clean_s_name service_url layer error w :
  let full_layer_url := service_url ++ py "/" ++ str_Z (lyr_id layer) in
  let pre := [Print (checking_line clean_s_name (lyr_name layer));
              Get (ids_request full_layer_url);
              Print (unknown_line error)] in
  ids_result (remote (calls w) (ids_request full_layer_url)) = (None, error) ->
  check_layer clean_s_name service_url layer w =
  match read_choice unknown_prompt (stdin w) with
  | (Ok choice, rest, evs) =>
      let '(r, w', evs') :=
        execute_download clean_s_name (lyr_id layer) (lyr_name layer)
          full_layer_url (str_eq choice (py "y")) None 0
          (set_stdin rest (tick w)) in
      (r, w', pre ++ evs ++ evs')
  | (Exn e, rest, evs) => (Exn e, set_stdin rest (tick w), pre ++ evs)
  end.
Proof.
  intros full_layer_url pre Hids. subst pre.
  unfold check_layer. fold full_layer_url.
  run_print. rewrite run_bind, get_layer_ids_run, Hids. cbv beta iota.
  run_print. rewrite run_bind. unfold confirm at 1.
  change (stdin (tick w)) with (stdin w).
  destruct (read_choice unknown_prompt (stdin w)) as [[[choice|e] rest] evs];
    cbv beta iota; [|done].
  by destruct (execute_download _ _ _ _ _ _ _ _) as [[r w'] evs'].
Qed.

Lemma prompts_of_repeat prompt n :
  prompts_of (repeat (Input prompt) n) = repeat prompt n.
Proof. induction n as [|n IH]; [done|]. simpl. by rewrite <- IH. Qed.

Lemma requests_of_repeat prompt n :
  requests_of (repeat (Input prompt) n) = [].
Proof. induction n as [|n IH]; [done|]. exact IH. Qed.

Lemma saves_of_repeat prompt n : saves_of (repeat (Input prompt) n) = [].
Proof. induction n as [|n IH]; [done|]. exact IH. Qed.

(** C3, as the script has it.  For a layer with more than 100000
    identifiers: every input line that, lowercased and stripped, is neither
    "y" nor "n" causes one more prompt and nothing else; when the first
    accepted line normalises to "y" the download of step 5 follows the
    prompts; when it normalises to "n" the layer is reported as skipped, the
    ID query stays the only request and no file is written; when standard
    input ends without an accepted line the prompt raises and nothing is
    downloaded.  So a request other than the ID query, or a file write, only
    happens after a line that normalises to "y". *)
Theorem large_layer_needs_confirmation
    (clean_s_name service_url : pystr) (layer : Layer) (ids : list Z)
    (w : World) :
  let full_layer_url := service_url ++ py "/" ++ str_Z (lyr_id layer) in
  let run := check_layer clean_s_name service_url layer w in
  let pre := [Print (checking_line clean_s_name (lyr_name layer));
              Get (ids_request full_layer_url);
              Print (large_line (length ids))] in
  ids_query_returns full_layer_url w ids ->
  (LARGE_LAYER_THRESHOLD < Z.of_nat (length ids))%Z ->
  (forall junk line rest,
      stdin w = junk ++ line :: rest ->
      Forall rejected junk ->
      is_choice (normalise line) = true ->
      prompts_of (events run) = repeat large_prompt (S (length junk))
      /\ (normalise line = py "y" ->
          let download :=
            execute_download clean_s_name (lyr_id layer) (lyr_name layer)
              full_layer_url true (Some ids) (length ids)
              (set_stdin rest (tick w)) in
          run = (outcome download, world_after download,
                 pre ++ repeat (Input large_prompt) (S (length junk))
                 ++ events download))
      /\ (normalise line = py "n" ->
          run = (Ok tt, set_stdin rest (tick w),
                 pre ++ repeat (Input large_prompt) (S (length junk))
                 ++ [Print skipped_line])
          /\ requests_of (events run) = [ids_request full_layer_url]
          /\ saves_of (events run) = []
          /\ files (world_after run) = files w))
  /\ (Forall rejected (stdin w) ->
      run = (Exn eof_error, set_stdin [] (tick w),
             pre ++ repeat (Input large_prompt) (S (length (stdin w))))
      /\ requests_of (events run) = [ids_request full_layer_url]
      /\ saves_of (events run) = [])
  /\ (requests_of (events run) <> [ids_request full_layer_url]
      \/ saves_of (events run) <> [] ->
      exists junk line rest,
        stdin w = junk ++ line :: rest /\ Forall rejected junk
        /\ normalise line = py "y").
Proof.
  intros full_layer_url run pre Hids Hbig.
  pose proof (check_layer_large_run clean_s_name service_url layer ids w
                Hids Hbig) as Hrun.
  fold full_layer_url run in Hrun. fold pre in Hrun.
  assert (Hdeclined : forall n tail,
    requests_of tail = [] -> saves_of tail = [] ->
    requests_of (pre ++ repeat (Input large_prompt) n ++ tail)
    = [ids_request full_layer_url]
    /\ saves_of (pre ++ repeat (Input large_prompt) n ++ tail) = []).
  { intros n tail Hr Hs. unfold requests_of, saves_of in *.
    rewrite !omap_app, Hr, Hs.
    fold (requests_of (repeat (Input large_prompt) n)).
    fold (saves_of (repeat (Input large_prompt) n)).
    by rewrite requests_of_repeat, saves_of_repeat. }
  assert (Hprompts : forall n tail,
    prompts_of tail = [] ->
    prompts_of (pre ++ repeat (Input large_prompt) n ++ tail)
    = repeat large_prompt n).
  { intros n tail Hp. unfold prompts_of in *. rewrite !omap_app, Hp.
    fold (prompts_of (repeat (Input large_prompt) n)).
    rewrite prompts_of_repeat. by rewrite app_nil_r. }
  assert (Hno : forall junk line rest,
    stdin w = junk ++ line :: rest -> Forall rejected junk ->
    normalise line = py "n" ->
    run = (Ok tt, set_stdin rest (tick w),
           pre ++ repeat (Input large_prompt) (S (length junk))
           ++ [Print skipped_line])).
  { intros junk line rest Hin Hj Hn. rewrite Hrun, Hin.
    rewrite (read_choice_first large_prompt junk line rest Hj)
      by (apply is_choice_true; by right).
    by rewrite Hn. }
  assert (Heof : Forall rejected (stdin w) ->
    run = (Exn eof_error, set_stdin [] (tick w),
           pre ++ repeat (Input large_prompt) (S (length (stdin w))))).
  { intros Hall. rewrite Hrun.
    destruct (read_choice_cases large_prompt (stdin w))
      as [[_ ->]|(junk & line & rest & Hin & _ & Hl & _)]; [done|].
    rewrite Hin in Hall. apply Forall_app in Hall as [_ Hall].
    apply Forall_cons in Hall as [Hrej _]. unfold rejected in Hrej. congruence. }
  split; [|split].
  - intros junk line rest Hin Hj Hl. split; [|split].
    + rewrite Hrun, Hin, (read_choice_first large_prompt junk line rest Hj Hl).
      destruct (str_eq (normalise line) (py "y")).
      * pose proof (execute_download_no_prompt clean_s_name (lyr_id layer)
          (lyr_name layer) full_layer_url true (Some ids) (length ids)
          (set_stdin rest (tick w))) as Hq.
        unfold events in *.
        destruct (execute_download _ _ _ _ _ _ _ _) as [[r w'] evs'].
        cbn [snd] in *. apply Hprompts. by apply prompts_of_none.
      * unfold events. cbn [snd]. by apply Hprompts.
    + intros Hy download. rewrite Hrun, Hin.
      rewrite (read_choice_first large_prompt junk line rest Hj Hl), Hy.
      change (str_eq (py "y") (py "y")) with true. cbv iota.
      fold download. by destruct download as [[r w'] evs'].
    + intros Hn. rewrite (Hno junk line rest Hin Hj Hn).
      split; [done|]. unfold events, world_after. cbn [fst snd].
      destruct (Hdeclined (S (length junk)) [Print skipped_line]) as [? ?];
        done.
  - intros Hall. rewrite (Heof Hall). split; [done|].
    unfold events. cbn [snd].
    destruct (Hdeclined (S (length (stdin w))) []) as [? ?]; [done..|].
    by rewrite !app_nil_r in *.
  - intros Hdl.
    destruct (read_choice_cases large_prompt (stdin w))
      as [[Hall _]|(junk & line & rest & Hin & Hj & Hl & _)].
    + exfalso. rewrite (Heof Hall) in Hdl. unfold events in Hdl.
      cbn [snd] in Hdl.
      destruct (Hdeclined (S (length (stdin w))) []) as [Hr Hs]; [done..|].
      rewrite !app_nil_r in *. destruct Hdl; done.
    + apply is_choice_true in Hl as Hl'. destruct Hl' as [Hy|Hn].
      * by exists junk, line, rest.
      * exfalso. rewrite (Hno junk line rest Hin Hj Hn) in Hdl.
        unfold events in Hdl. cbn [snd] in Hdl.
        destruct (Hdeclined (S (length junk)) [Print skipped_line])
          as [Hr Hs]; [done..|].
        destruct Hdl; done.
Qed.

Lemma read_choice_cons prompt line rest :
  read_choice prompt (line :: rest) =
  if is_choice (normalise line) then (Ok (normalise line), rest, [Input prompt])
  else let '(r, rest', evs) := read_choice prompt rest in
       (r, rest', Input prompt :: evs).
Proof. reflexivity. Qed.

Lemma read_choice_normalised prompt line line' rest :
  normalise line = normalise line' ->
  read_choice prompt (line :: rest) = read_choice prompt (line' :: rest).
Proof. intros H. by rewrite !read_choice_cons, H. Qed.

(** C10.  Both prompts compare the lowercased and stripped input line with
    "y" and "n": a line whose normal form is one of the two is accepted at
    once and that normal form is the choice, any other line leads to the
    next prompt; "Y" and " y " are read as "y" and "N" as "n"; and at either
    prompt of a layer, two answers with the same normal form have the same
    effect. *)
Theorem prompts_normalise_input
    (clean_s_name service_url : pystr) (layer : Layer)
    (line line' : pystr) (rest : list pystr) (w : World) :
  let full_layer_url := service_url ++ py "/" ++ str_Z (lyr_id layer) in
  let w' := set_stdin (line' :: rest) w in
  stdin w = line :: rest ->
  normalise line = normalise line' ->
  (forall prompt,
      confirm prompt w =
      if str_eq (strip (str_lower line)) (py "y")
         || str_eq (strip (str_lower line)) (py "n")
      then (Ok (strip (str_lower line)), set_stdin rest w, [Input prompt])
      else let '(r, w2, evs) := confirm prompt (set_stdin rest w) in
           (r, w2, Input prompt :: evs))
  /\ normalise (py "Y") = py "y"
  /\ normalise (py " y ") = py "y"
  /\ normalise (py "N") = py "n"
  /\ (forall ids,
        ids_query_returns full_layer_url w ids ->
        (LARGE_LAYER_THRESHOLD < Z.of_nat (length ids))%Z ->
        check_layer clean_s_name service_url layer w
        = check_layer clean_s_name service_url layer w')
  /\ (forall error,
        ids_result (remote (calls w) (ids_request full_layer_url))
        = (None, error) ->
        check_layer clean_s_name service_url layer w
        = check_layer clean_s_name service_url layer w').
Proof.
  intros full_layer_url w' Hin Hnorm.
  split; [|split; [|split; [|split; [|split]]]].
  - intros prompt. unfold confirm. rewrite Hin, read_choice_cons.
    fold (normalise line). fold (is_choice (normalise line)).
    destruct (is_choice (normalise line)); [done|].
    cbn [stdin set_stdin]. by destruct (read_choice prompt rest) as [[r r'] e].
  - reflexivity.
  - reflexivity.
  - reflexivity.
  - intros ids Hids Hbig.
    rewrite (check_layer_large_run clean_s_name service_url layer ids w)
      by done.
    rewrite (check_layer_large_run clean_s_name service_url layer ids w')
      by done.
    subst w'. cbn [stdin set_stdin]. rewrite Hin.
    by rewrite (read_choice_normalised large_prompt line line' rest Hnorm).
  - intros error Herr.
    rewrite (check_layer_unknown_run clean_s_name service_url layer error w)
      by done.
    rewrite (check_layer_unknown_run clean_s_name service_url layer error w')
      by done.
    subst w'. cbn [stdin set_stdin]. rewrite Hin.
    by rewrite (read_choice_normalised unknown_prompt line line' rest Hnorm).
Qed.

(** *** File names *)

Lemma py_cons (c : ascii) (s : string) : py (String c s) = N_of_ascii c :: py s.
Proof. reflexivity. Qed.

Lemma safe_uint (d : Decimal.uint) :
  forallb safe_char (py (NilEmpty.string_of_uint d)) = true.
Proof. induction d; simpl; rewrite ?py_cons; simpl; done. Qed.

Lemma safe_str_Z (z : Z) : forallb safe_char (str_Z z) = true.
Proof.
  unfold str_Z, NilZero.string_of_int, NilZero.string_of_uint.
  destruct (Z.to_int z) as [d|d].
  - destruct d; try apply safe_uint. reflexivity.
  - rewrite py_cons.
    change (forallb safe_char (N_of_ascii "-" :: ?l))
      with (forallb safe_char l).
    destruct d; try apply safe_uint. reflexivity.
Qed.

Lemma safe_sanitize_filename (name : pystr) :
  forallb safe_char (sanitize_filename name) = true.
Proof.
  induction name as [|c name IH]; [done|]. simpl.
  rewrite IH, andb_true_r.
  destruct (safe_char c) eqn:E; [done|reflexivity].
Qed.

Lemma saves_of_Forall (Q : pystr * pystr -> Prop) evs :
  Forall (fun e => match e with Save p c => Q (p, c) | _ => True end) evs ->
  Forall Q (saves_of evs).
Proof.
  induction 1 as [|e evs He _ IH]; [constructor|].
  destruct e; try exact IH. by constructor.
Qed.

Lemma check_layer_saves clean_s_name service_url layer :
  emits (saves_layer clean_s_name (lyr_id layer) (lyr_name layer))
    (check_layer clean_s_name service_url layer).
Proof.
  unfold check_layer, get_layer_ids, execute_download, download_in_chunks,
    download_chunk, simple_download.
  repeat emits_step; done.
Qed.
(** *** The whole run *)

Lemma run_ret_bind {A B} (a : A) (f : A -> M B) w : (mret a ≫= f) w = f a w.
Proof.
  rewrite run_bind. change ((mret a : M A) w) with (Ok a, w, @nil Event).
  cbv beta iota. by destruct (f a w) as [[r w2] e2].
Qed.

Lemma for_each_app {A} (xs ys : list A) (body : A -> M unit) w :
  for_each (xs ++ ys) body w =
  match for_each xs body w with
  | (Ok _, w1, e1) =>
      let '(r, w2, e2) := for_each ys body w1 in (r, w2, e1 ++ e2)
  | (Exn e, w1, e1) => (Exn e, w1, e1)
  end.
Proof.
  revert w. induction xs as [|x xs IH]; intros w.
  - simpl. by destruct (for_each ys body w) as [[r w2] e2].
  - simpl. rewrite !run_bind.
    destruct (body x w) as [[[[]|e] w1] e1]; [|done].
    rewrite IH. destruct (for_each xs body w1) as [[[[]|e] w2] e2]; [|done].
    destruct (for_each ys body w2) as [[r w3] e3]. by rewrite app_assoc.
Qed.

Lemma for_each_raise {A} (x : A) (ys : list A) (body : A -> M unit) w e :
  outcome (body x w) = Exn e ->
  for_each (x :: ys) body w = (Exn e, world_after (body x w), events (body x w)).
Proof.
  intros H. simpl. rewrite run_bind. unfold outcome in H.
  destruct (body x w) as [[r w1] e1]. simpl in H. by subst r.
Qed.

Lemma scan_service_run s_name w :
  let body := check_layer (replace (py "Hosted/") [] s_name)
                (service_url_of s_name) in
  scan_service s_name w =
  match remote (calls w) (service_request s_name) with
  | Raised e =>
      (Ok tt, tick w,
       [Get (service_request s_name); Print (scan_error_line s_name e)])
  | Answered {| status_code := c; body := NotJson e |} =>
      (Ok tt, tick w,
       [Get (service_request s_name); Print (scan_error_line s_name e)])
  | Answered {| status_code := c; body := Json d |} =>
      match layers d with
      | None => (Ok tt, tick w, [Get (service_request s_name)])
      | Some ls =>
          match for_each ls body (tick w) with
          | (Ok _, w1, e1) => (Ok tt, w1, Get (service_request s_name) :: e1)
          | (Exn e, w1, e1) =>
              (Ok tt, w1,
               Get (service_request s_name) :: e1
               ++ [Print (scan_error_line s_name e)])
          end
      end
  end.
Proof.
  intros body. subst body. unfold scan_service, try_except.
  rewrite run_bind. unfold requests_get at 1.
  fold (service_request s_name).
  destruct (remote (calls w) (service_request s_name)) as [e|[c [e|d]]];
    cbv beta iota.
  - by unfold print, emit.
  - rewrite run_bind. unfold json, raise. cbn [body]. cbv beta iota.
    by unfold print, emit.
  - rewrite run_bind. unfold json. cbn [body].
    change ((mret d : M Doc) (tick w)) with (Ok d, tick w, @nil Event).
    cbv beta iota. destruct (layers d) as [ls|].
    + destruct (for_each ls _ (tick w)) as [[[[]|e] w1] e1]; cbv beta iota.
      * reflexivity.
      * unfold print, emit. cbv beta iota. reflexivity.
    + done.
Qed.

Lemma scan_service_ok s_name w : outcome (scan_service s_name w) = Ok tt.
Proof.
  unfold scan_service, try_except, outcome.
  match goal with
  | |- (match ?x with _ => _ end).1.1 = _ =>
      destruct x as [[[[]|e] w1] e1]; [done|]
  end.
  by unfold print, emit.
Qed.

(** An entry with both keys goes through the two filters. *)
Lemma visit_service_run service w :
  visit_service (entry_of service) w =
  if considered service then scan_service (svc_name service) w
  else (Ok tt, w, []).
Proof.
  unfold visit_service, considered, entry_of, getitem.
  cbn [entry_name entry_type]. rewrite !run_ret_bind.
  destruct (has_keyword _); [|done]. by destruct (str_eq _ _).
Qed.

(** An entry that lacks a key ends the loop of line 123 with a [KeyError]. *)
Lemma visit_service_missing entry k w :
  missing_key entry = Some k ->
  visit_service entry w = (Exn (key_error k), w, []).
Proof.
  destruct entry as [[s_name|] [s_type|]]; unfold missing_key;
    cbn [entry_name entry_type]; intros [= <-]; done.
Qed.

Lemma missing_key_entry_of service : missing_key (entry_of service) = None.
Proof. done. Qed.

Lemma missing_key_None entry :
  missing_key entry = None -> exists service, entry = entry_of service.
Proof.
  destruct entry as [[s_name|] [s_type|]]; try done. intros _.
  by exists {| svc_name := s_name; svc_type := s_type |}.
Qed.







Lemma main_run w :
  main w =
  match catalog_services (remote (calls w) catalog_request) with
  | Exn e =>
      (Ok tt, tick (with_folder w), preamble w ++ [Print (connect_error_line e)])
  | Ok None => (Exn not_iterable, tick (with_folder w), preamble w)
  | Ok (Some entries) =>
      let scan := for_each entries visit_service (tick (with_folder w)) in
      match outcome scan with
      | Ok _ =>
          (Ok tt, world_after scan,
           preamble w ++ events scan ++ [Print done_line])
      | Exn e => (Exn e, world_after scan, preamble w ++ events scan)
      end
  end.
Proof.
  unfold main, preamble, with_folder. rewrite run_bind.
  unfold ensure_folder at 1.
  assert (forall v : World, calls v = calls w ->
    forall pre,
    (let '(r, w2, e2) :=
       (print (py "--- Smart Downloader (CRS: " ++ CRS ++ py ") ---");;
        print (py "--- Auto-downloading layers under "
               ++ str_Z LARGE_LAYER_THRESHOLD ++ py " features ---");;
        fetched ←
          try_except
            (resp ← requests_get BASE_URL [(py "f", py "json")];
             catalog ← json resp;
             mret (Some (get_default (services catalog) [])))
            (fun e => print (py "Error connecting to server: " ++ e);;
                      mret None);
        match fetched with
        | None => mret tt
        | Some svcs =>
            entries ← iterate svcs;
            for_each entries visit_service;;
            print (nl ++ py "All done!")
        end) v in
     (r, w2, pre ++ e2)) =
    let start :=
      [Print (py "--- Smart Downloader (CRS: " ++ CRS ++ py ") ---");
       Print (py "--- Auto-downloading layers under "
              ++ str_Z LARGE_LAYER_THRESHOLD ++ py " features ---");
       Get catalog_request] in
    match catalog_services (remote (calls w) catalog_request) with
    | Exn e =>
        (Ok tt, tick v, pre ++ start ++ [Print (connect_error_line e)])
    | Ok None => (Exn not_iterable, tick v, pre ++ start)
    | Ok (Some entries) =>
        let scan := for_each entries visit_service (tick v) in
        match outcome scan with
        | Ok _ =>
            (Ok tt, world_after scan,
             pre ++ start ++ events scan ++ [Print done_line])
        | Exn e => (Exn e, world_after scan, pre ++ start ++ events scan)
        end
    end) as Hrest.
  { intros v Hv pre. cbv zeta. run_print. run_print. rewrite run_bind.
    unfold try_except at 1. rewrite run_bind. unfold requests_get at 1.
    rewrite Hv. fold catalog_request. unfold catalog_services.
    destruct (remote (calls w) catalog_request) as [e|[c [e|d]]];
      cbv beta iota.
    - by unfold print, emit.
    - by unfold print, emit.
    - unfold json. cbn [body]. rewrite run_ret_bind.
      change ((mret (Some (get_default (services d) [])) : M _) (tick v))
        with (Ok (Some (get_default (services d) [])), tick v, @nil Event).
      cbv beta iota. unfold iterate.
      destruct (get_default (services d) []) as [entries|].
      + rewrite run_ret_bind, run_bind.
        unfold outcome, world_after, events.
        destruct (for_each entries visit_service (tick v))
          as [[[[]|e] w1] e1]; cbn [fst snd].
        * unfold print, emit. cbv beta iota zeta. by rewrite app_nil_r.
        * by rewrite app_nil_r.
      + done. }
  destruct (folder_exists w) eqn:Hf; cbv beta iota.
  - rewrite (Hrest w eq_refl []). cbv zeta.
    destruct (catalog_services _) as [[entries|]|e]; done.
  - rewrite (Hrest (set_folder w) eq_refl [MakeDirs DOWNLOAD_FOLDER]).
    cbv zeta.
    destruct (catalog_services _) as [[entries|]|e];
      rewrite <- ?app_assoc; done.
Qed.
(** *** Where the files go *)

Lemma scan_service_saves entries s_name :
  In {| entry_name := Some s_name;
        entry_type := Some (py "FeatureServer") |} entries ->
  has_keyword s_name = true ->
  emits (catalog_save_event entries) (scan_service s_name).
Proof.
  intros Hin Hk w. rewrite scan_service_run. cbv zeta.
  destruct (remote (calls w) (service_request s_name))
    as [e|[c [e|d]]] eqn:Hr; [by repeat constructor..|].
  destruct (layers d) as [ls|] eqn:Hl; [|by repeat constructor].
  assert (Forall (catalog_save_event entries)
            (events (for_each ls
                       (check_layer (replace (py "Hosted/") [] s_name)
                          (service_url_of s_name)) (tick w)))) as Hls.
  { apply emits_for_each_In. intros layer Hlayer v.
    eapply Forall_impl; [apply check_layer_saves|].
    intros [] He; try done. simpl in He. subst.
    by exists s_name, layer, (calls w), c, d, ls. }
  unfold events in *.
  destruct (for_each ls _ (tick w)) as [[[[]|e] w1] e1]; cbn [snd] in *.
  - by constructor.
  - constructor; [done|]. apply Forall_app. by split; [|repeat constructor].
Qed.

Lemma visit_service_saves entries entry :
  In entry entries ->
  emits (catalog_save_event entries) (visit_service entry).
Proof.
  intros Hin w. destruct (missing_key entry) as [k|] eqn:Hk.
  - rewrite (visit_service_missing entry k w Hk). constructor.
  - apply missing_key_None in Hk as [[s_name s_type] ->].
    rewrite visit_service_run. unfold considered.
    cbn [svc_name svc_type].
    destruct (has_keyword s_name) eqn:Hkw; [|constructor].
    destruct (str_eq s_type (py "FeatureServer")) eqn:Ht; [|constructor].
    apply str_eq_true in Ht as ->. by apply scan_service_saves.
Qed.

Lemma main_saves w :
  Forall (fun e =>
            match e with
            | Save p _ =>
                exists entries,
                  catalog_services (remote (calls w) catalog_request)
                  = Ok (Some entries)
                  /\ layer_of_catalog entries p
            | _ => True
            end)
         (events (main w)).
Proof.
  rewrite main_run.
  assert (forall Q, Forall (fun e => match e with Save p c => Q p c
                                     | _ => True end) (preamble w)) as Hpre.
  { intros Q. unfold preamble.
    destruct (folder_exists w); by repeat constructor. }
  destruct (catalog_services _) as [[entries|]|e] eqn:Hc.
  - assert (Forall (fun e => match e with
                            | Save p _ =>
                                exists entries0,
                                  Ok (Some entries) = Ok (Some entries0)
                                  /\ layer_of_catalog entries0 p
                            | _ => True
                            end)
              (events (for_each entries visit_service
                         (tick (with_folder w))))) as Hscan.
    { eapply Forall_impl.
      - apply emits_for_each_In. intros entry Hin.
        by apply visit_service_saves.
      - intros [] He; try done. by exists entries. }
    cbv zeta. destruct (outcome _); unfold events at 1; cbn [snd].
    + rewrite !Forall_app. split; [apply Hpre|]. split; [done|].
      by repeat constructor.
    + rewrite Forall_app. split; [apply Hpre|done].
  - unfold events. cbn [snd]. apply Hpre.
  - unfold events. cbn [snd]. rewrite Forall_app.
    split; [apply Hpre|by repeat constructor].
Qed.

(** C4, as the script has it.  Every file a run writes is the file of a
    layer of a service: the service is an entry of the service list the
    catalog returned that passed both filters, the layer is an entry of a
    layer list that service returned, and the file is saved under the
    download folder with the name
    [{cleanedServiceName}___L{layerId}_{sanitizedLayerName}.geojson] made
    from the name of that service and the id and name of that layer; the
    check of a layer writes to no other path than the one of that layer.
    The sanitized layer name holds safe characters only, and since the
    cleaned service name is the service name without its "Hosted/" parts and
    is not sanitized, the whole file name holds safe characters only exactly
    when the cleaned service name does. *)
Theorem saved_layer_filename :
  (forall w,
      Forall (fun pc =>
                exists entries,
                  catalog_services (remote (calls w) catalog_request)
                  = Ok (Some entries)
                  /\ layer_of_catalog entries pc.1)
             (saves_of (events (main w))))
  /\ (forall clean_s_name service_url layer w,
         Forall (fun pc =>
                   pc.1 = path_join DOWNLOAD_FOLDER
                            (layer_filename clean_s_name (lyr_id layer)
                               (lyr_name layer)))
                (saves_of (events (check_layer clean_s_name service_url
                                     layer w))))
  /\ (forall clean_s_name l_id l_name,
         layer_filename clean_s_name l_id l_name
         = clean_s_name ++ py "___L" ++ str_Z l_id ++ py "_"
           ++ sanitize_filename l_name ++ py ".geojson")
  /\ (forall l_name, forallb safe_char (sanitize_filename l_name) = true)
  /\ (forall clean_s_name l_id l_name,
         forallb safe_char (layer_filename clean_s_name l_id l_name)
         = forallb safe_char clean_s_name).
Proof.
  split; [|split; [|split; [|split]]].
  - intros w.
    apply (saves_of_Forall
             (fun pc => exists entries,
                          catalog_services (remote (calls w) catalog_request)
                          = Ok (Some entries)
                          /\ layer_of_catalog entries pc.1)).
    apply main_saves.
  - intros clean_s_name service_url layer w.
    apply (saves_of_Forall
             (fun pc => pc.1 = path_join DOWNLOAD_FOLDER
                                 (layer_filename clean_s_name (lyr_id layer)
                                    (lyr_name layer)))).
    apply (check_layer_saves clean_s_name service_url layer w).
  - reflexivity.
  - apply safe_sanitize_filename.
  - intros clean_s_name l_id l_name. unfold layer_filename.
    rewrite !forallb_app, safe_str_Z, safe_sanitize_filename.
    change (forallb safe_char (py "___L")) with true.
    change (forallb safe_char (py "_")) with true.
    change (forallb safe_char (py ".geojson")) with true.
    by rewrite !andb_true_r.
Qed.
(** *** The end of a run *)








(** *** The service filter *)

Lemma startswith_spec p s : startswith p s = true <-> exists post, s = p ++ post.
Proof.
  revert s. induction p as [|a p IH]; intros s; simpl.
  - split; [by exists s|done].
  - destruct s as [|b s].
    + split; [done|]. by intros [post H].
    + rewrite andb_true_iff, N.eqb_eq, IH. split.
      * intros [-> [post ->]]. by exists post.
      * intros [post H]. injection H as -> ->. split; [done|by exists post].
Qed.











(** *** Running the program again *)

Lemma same_io_start w1 w2 :
  same_io w1 w2 -> same_io (tick (with_folder w1)) (tick (with_folder w2)).
Proof.
  intros [Hc Hs]. unfold same_io, with_folder.
  destruct (folder_exists w1), (folder_exists w2); simpl; by rewrite Hc, Hs.
Qed.

Lemma saves_of_preamble w : saves_of (preamble w) = [].
Proof. unfold preamble. by destruct (folder_exists w). Qed.

Lemma main_same_saves w1 w2 :
  same_io w1 w2 ->
  saves_of (events (main w1)) = saves_of (events (main w2)).
Proof.
  intros Hio. rewrite !main_run. destruct Hio as [Hc Hs] eqn:E. clear E.
  rewrite Hc. destruct (catalog_services _) as [[entries|]|e].
  - destruct (blind_for_each entries visit_service blind_visit_service
                (tick (with_folder w1)) (tick (with_folder w2)))
      as (Hout & Hev & _); [by apply same_io_start|].
    cbv zeta. rewrite Hout.
    destruct (outcome (for_each entries visit_service
                         (tick (with_folder w2))));
      unfold events at 1 3; cbn [snd];
      unfold saves_of in *; rewrite !omap_app, Hev;
      fold (saves_of (preamble w1)); fold (saves_of (preamble w2));
      by rewrite !saves_of_preamble.
  - unfold events. cbn [snd]. by rewrite !saves_of_preamble.
  - unfold events. cbn [snd]. unfold saves_of. rewrite !omap_app.
    fold (saves_of (preamble w1)). fold (saves_of (preamble w2)).
    by rewrite !saves_of_preamble.
Qed.

(** C9.  Two runs against the same remote replies and the same input lines
    write the same files with the same contents in the same order, whatever
    the download folder held before; each run leaves in the folder what the
    writes put there, so every path written holds the same bytes after both
    runs, and a run started on the folder a first run left behind leaves it
    as it found it. *)
Theorem rerun_writes_same_files (w1 w2 : World) :
  same_io w1 w2 ->
  let written := saves_of (events (main w1)) in
  saves_of (events (main w2)) = written
  /\ files (world_after (main w1)) = apply_saves written (files w1)
  /\ files (world_after (main w2)) = apply_saves written (files w2)
  /\ (forall p c,
        last_write p written = Some c ->
        files (world_after (main w1)) !! p = Some c
        /\ files (world_after (main w2)) !! p = Some c)
  /\ (files w2 = files (world_after (main w1)) ->
      files (world_after (main w2)) = files (world_after (main w1))).
Proof.
  intros Hio written.
  pose proof (main_same_saves w1 w2 Hio) as Hsame. fold written in Hsame.
  pose proof (tracks_main w1) as H1. fold written in H1.
  pose proof (tracks_main w2) as H2. rewrite <- Hsame in H2.
  split; [done|]. split; [done|]. split; [done|]. split.
  - intros p c Hp. rewrite H1, H2, !lookup_apply_saves, Hp. done.
  - intros Hf. rewrite H2, Hf, H1. apply apply_saves_idem.
Qed.

(** ** Further properties of the script *)

(** *** [get_layer_ids] *)

(** X1.  [get_layer_ids] never raises and issues exactly one request, the
    ID query.  It returns an identifier list exactly when the reply has
    status 200 and a JSON body whose [objectIds] is a list; a reply with any
    other status yields the message "HTTP Error <status>" whatever its body
    holds; and when no list is returned an error message comes with it,
    except when the body has [objectIds] set to [null]. *)
Theorem get_layer_ids_never_raises (layer_url : pystr) (w : World) :
  let reply := remote (calls w) (ids_request layer_url) in
  exists ids error,
    get_layer_ids layer_url w
    = (Ok (ids, error), tick w, [Get (ids_request layer_url)])
    /\ (forall l,
          ids = Some l <->
          exists d, reply = Answered {| status_code := 200; body := Json d |}
                    /\ objectIds d = Some (Some l))
    /\ (ids <> None -> error = None)
    /\ (ids = None ->
        (error = None <->
         exists d, reply = Answered {| status_code := 200; body := Json d |}
                   /\ objectIds d = Some None))
    /\ (forall c b,
          reply = Answered {| status_code := c; body := b |} -> c <> 200%Z ->
          ids = None /\ error = Some (py "HTTP Error " ++ str_Z c)).
Proof.
  intros reply. rewrite get_layer_ids_run. fold reply.
  destruct reply as [e|[c [e|d]]] eqn:E; unfold ids_result;
    cbn [status_code body].
  - eexists _, _. split; [reflexivity|]. naive_solver.
  - destruct (Z.eqb_spec c 200) as [->|Hc]; cbn [negb];
      eexists _, _; (split; [reflexivity|]); naive_solver.
  - destruct (Z.eqb_spec c 200) as [->|Hc]; cbn [negb].
    + destruct (objectIds d) as [[l|]|] eqn:Hd;
        eexists _, _; (split; [reflexivity|]); naive_solver.
    + eexists _, _; (split; [reflexivity|]); naive_solver.
Qed.

(** *** Layers of unknown size *)

Lemma read_choice_starts prompt lines :
  exists evs, (read_choice prompt lines).2 = Input prompt :: evs.
Proof.
  destruct lines as [|line rest]; simpl; [by eexists|].
  destruct (is_choice _); [by eexists|].
  destruct (read_choice prompt rest) as [[r rest'] evs]. by eexists.
Qed.

Lemma get_layer_ids_result layer_url w res :
  outcome (get_layer_ids layer_url w) = Ok res ->
  ids_result (remote (calls w) (ids_request layer_url)) = res.
Proof. rewrite get_layer_ids_run. unfold outcome. simpl. congruence. Qed.

(** X2.  When the ID query is answered with status 200 and a body whose
    [objectIds] is [null], the layer is treated as one of unknown size: the
    size line shows "(None)" as the reason and the "Download anyway?" prompt
    follows. *)
Theorem null_object_ids_prompt
    (clean_s_name service_url : pystr) (layer : Layer) (d : Doc) (w : World) :
  let full_layer_url := service_url ++ py "/" ++ str_Z (lyr_id layer) in
  remote (calls w) (ids_request full_layer_url)
  = Answered {| status_code := 200; body := Json d |} ->
  objectIds d = Some None ->
  exists rest,
    events (check_layer clean_s_name service_url layer w)
    = [Print (checking_line clean_s_name (lyr_name layer));
       Get (ids_request full_layer_url);
       Print (py "   [?] Could not determine size. (None)");
       Input unknown_prompt] ++ rest.
Proof.
  intros full_layer_url Hreply Hnull.
  rewrite (check_layer_unknown_run clean_s_name service_url layer None w).
  2:{ fold full_layer_url. rewrite Hreply. unfold ids_result. simpl.
      by rewrite Hnull. }
  fold full_layer_url.
  destruct (read_choice_starts unknown_prompt (stdin w)) as [evs Hevs].
  destruct (read_choice unknown_prompt (stdin w)) as [[[choice|e] rest'] evs'];
    simpl in Hevs; subst evs'.
  - destruct (execute_download _ _ _ _ _ _ _ _) as [[r w'] evs'].
    by eexists.
  - by eexists.
Qed.

(** X3.  For a layer whose ID query yields no identifier list: every input
    line that normalises to neither "y" nor "n" causes one more "Download
    anyway?" prompt; when the first accepted line normalises to "y", step 5
    runs with the unpaginated download; when it normalises to "n", or when
    standard input ends first, the ID query stays the only request and no
    file is written, and at end of input the prompt raises. *)
Theorem unknown_size_needs_confirmation
    (clean_s_name service_url : pystr) (layer : Layer)
    (error : option pystr) (w : World) :
  let full_layer_url := service_url ++ py "/" ++ str_Z (lyr_id layer) in
  let run := check_layer clean_s_name service_url layer w in
  let pre := [Print (checking_line clean_s_name (lyr_name layer));
              Get (ids_request full_layer_url);
              Print (unknown_line error)] in
  outcome (get_layer_ids full_layer_url w) = Ok (None, error) ->
  (forall junk line rest,
      stdin w = junk ++ line :: rest ->
      Forall rejected junk ->
      (normalise line = py "y" ->
       let download :=
         execute_download clean_s_name (lyr_id layer) (lyr_name layer)
           full_layer_url true None 0 (set_stdin rest (tick w)) in
       run = (outcome download, world_after download,
              pre ++ repeat (Input unknown_prompt) (S (length junk))
              ++ events download))
      /\ (normalise line = py "n" ->
          run = (Ok tt, set_stdin rest (tick w),
                 pre ++ repeat (Input unknown_prompt) (S (length junk)))
          /\ requests_of (events run) = [ids_request full_layer_url]
          /\ saves_of (events run) = []))
  /\ (Forall rejected (stdin w) ->
      run = (Exn eof_error, set_stdin [] (tick w),
             pre ++ repeat (Input unknown_prompt) (S (length (stdin w))))
      /\ requests_of (events run) = [ids_request full_layer_url]
      /\ saves_of (events run) = []).
Proof.
  intros full_layer_url run pre Hids.
  apply get_layer_ids_result in Hids.
  pose proof (check_layer_unknown_run clean_s_name service_url layer error w
                Hids) as Hrun.
  fold full_layer_url run in Hrun. fold pre in Hrun.
  assert (Hquiet : forall n,
    requests_of (pre ++ repeat (Input unknown_prompt) n)
    = [ids_request full_layer_url]
    /\ saves_of (pre ++ repeat (Input unknown_prompt) n) = []).
  { intros n. unfold requests_of, saves_of. rewrite !omap_app.
    fold (requests_of (repeat (Input unknown_prompt) n)).
    fold (saves_of (repeat (Input unknown_prompt) n)).
    by rewrite requests_of_repeat, saves_of_repeat. }
  split.
  - intros junk line rest Hin Hj. split.
    + intros Hy download. rewrite Hrun, Hin.
      rewrite (read_choice_first unknown_prompt junk line rest Hj)
        by (apply is_choice_true; by left).
      rewrite Hy. change (str_eq (py "y") (py "y")) with true.
      fold download. by destruct download as [[r w'] evs'].
    + intros Hn.
      assert (run = (Ok tt, set_stdin rest (tick w),
                     pre ++ repeat (Input unknown_prompt) (S (length junk))))
        as ->.
      { rewrite Hrun, Hin.
        rewrite (read_choice_first unknown_prompt junk line rest Hj)
          by (apply is_choice_true; by right).
        rewrite Hn. change (str_eq (py "n") (py "y")) with false.
        by rewrite execute_download_false, app_nil_r. }
      split; [done|]. apply Hquiet.
  - intros Hall.
    assert (run = (Exn eof_error, set_stdin [] (tick w),
                   pre ++ repeat (Input unknown_prompt) (S (length (stdin w)))))
      as ->.
    { rewrite Hrun.
      destruct (read_choice_cases unknown_prompt (stdin w))
        as [[_ ->]|(junk & line & rest & Hin & _ & Hl & _)]; [done|].
      rewrite Hin in Hall. apply Forall_app in Hall as [_ Hall].
      apply Forall_cons in Hall as [Hrej _]. unfold rejected in Hrej.
      congruence. }
    split; [done|]. apply Hquiet.
Qed.

(** *** The unpaginated download *)

Lemma execute_simple_run clean_s_name l_id l_name full_layer_url w :
  let req := simple_request full_layer_url in
  let path := layer_path clean_s_name l_id l_name in
  let start := [Print attempting_line; Get req] in
  execute_download clean_s_name l_id l_name full_layer_url true None 0 w =
  match remote (calls w) req with
  | Raised e => (Exn e, tick w, start)
  | Answered {| status_code := c; body := b |} =>
      if (c =? 200)%Z then
        match b with
        | NotJson e => (Exn e, tick w, start)
        | Json d =>
            match get_default (features d) [] with
            | None => (Exn no_len, tick w, start)
            | Some [] => (Ok tt, tick w, start ++ [Print fail_line])
            | Some (_ :: _) =>
                match open_error path with
                | Some e => (Exn e, tick w, start)
                | None =>
                    (Ok tt,
                     set_files (<[path := json_dump (Document d)]> (files w))
                       (tick w),
                     start ++ [Save path (json_dump (Document d));
                               Print (success_line path)])
                end
            end
        end
      else (Ok tt, tick w, start ++ [Print fail_line])
  end.
Proof.
  intros req path start. subst req path start.
  unfold execute_download, simple_download. rewrite run_bind. run_print.
  rewrite run_bind. unfold requests_get at 1. fold (simple_request full_layer_url).
  destruct (remote (calls w) (simple_request full_layer_url))
    as [e|[c [e|d]]]; cbv beta iota; [done|..].
  - cbn [status_code]. destruct (c =? 200)%Z.
    + rewrite run_bind. unfold json, raise. cbn [body]. by cbv beta iota.
    + change ((mret None : M (option GeoJson)) (tick w))
        with (@Ok (option GeoJson) None, tick w, @nil Event).
      cbv beta iota. by unfold print, emit.
  - cbn [status_code]. destruct (c =? 200)%Z.
    + rewrite run_bind. unfold json. cbn [body].
      change ((mret d : M Doc) (tick w)) with (Ok d, tick w, @nil Event).
      cbv beta iota.
      change ((mret (Some (Document d)) : M _) (tick w))
        with (Ok (Some (Document d)), tick w, @nil Event).
      cbv beta iota. rewrite run_bind. unfold len_features.
      destruct (get_default (features d) []) as [[|f fs]|].
      * rewrite app_nil_r.
        change ((mret (length (@nil Feature)) : M nat) (tick w))
          with (Ok 0, tick w, @nil Event).
        cbv beta iota. cbn [Nat.ltb Nat.leb]. by unfold print, emit.
      * rewrite app_nil_r.
        change ((mret (length (f :: fs)) : M nat) (tick w))
          with (Ok (S (length fs)), tick w, @nil Event).
        cbv beta iota. cbn [Nat.ltb Nat.leb].
        rewrite run_bind. unfold write_file at 1.
        fold (layer_path clean_s_name l_id l_name).
        destruct (open_error (layer_path clean_s_name l_id l_name)); [done|].
        by unfold print, emit.
      * unfold raise. cbv beta iota. by rewrite !app_nil_r.
    + change ((mret None : M (option GeoJson)) (tick w))
        with (@Ok (option GeoJson) None, tick w, @nil Event).
      cbv beta iota. by unfold print, emit.
Qed.

(** X4.  Step 5 on a layer without identifier list issues exactly one
    request, the unpaginated query.  It writes a file exactly when the reply
    has status 200 and a JSON body with at least one feature and the file can
    be opened; the file then holds the document as received.  It raises
    exactly when the request raises, when a reply with status 200 is not
    JSON or is JSON whose [features] are [null], or when the file cannot be
    opened; [null] features raise the [TypeError] of [len(None)].  When it
    returns without having written, the last line printed is the failure
    line. *)
Theorem unpaginated_download_outcome
    (clean_s_name : pystr) (l_id : Z) (l_name full_layer_url : pystr)
    (w : World) :
  let run := execute_download clean_s_name l_id l_name full_layer_url true
               None 0 w in
  let reply := remote (calls w) (simple_request full_layer_url) in
  let path := layer_path clean_s_name l_id l_name in
  requests_of (events run) = [simple_request full_layer_url]
  /\ (saves_of (events run) <> [] <->
      has_features reply /\ open_error path = None)
  /\ (forall d fs,
        reply = Answered {| status_code := 200; body := Json d |} ->
        features d = Some (Some fs) ->
        fs <> [] ->
        open_error path = None ->
        saves_of (events run) = [(path, json_dump (Document d))]
        /\ outcome run = Ok tt
        /\ files (world_after run)
           = <[path := json_dump (Document d)]> (files w))
  /\ ((exists e, outcome run = Exn e) <->
      (exists e, reply = Raised e)
      \/ (exists e, reply = Answered {| status_code := 200;
                                         body := NotJson e |})
      \/ (exists d, reply = Answered {| status_code := 200; body := Json d |}
                    /\ features d = Some None)
      \/ (has_features reply /\ open_error path <> None))
  /\ (forall d,
        reply = Answered {| status_code := 200; body := Json d |} ->
        features d = Some None ->
        run = (Exn no_len, tick w,
               [Print attempting_line; Get (simple_request full_layer_url)]))
  /\ (outcome run = Ok tt -> saves_of (events run) = [] ->
      last (prints_of (events run)) = Some fail_line).
Proof.
  intros run reply path. subst run. rewrite execute_simple_run.
  fold reply path. unfold has_features.
  destruct reply as [e|[c [e|d]]];
    [|destruct (Z.eqb_spec c 200) as [->|Hc]..];
    [| | |destruct (features d) as [[[|f fs]|]|] eqn:Hf;
           cbn [get_default];
           [|destruct (open_error path) as [e|] eqn:Ho| |]|].
  all: cbn [events outcome world_after fst snd requests_of saves_of prints_of
            omap list_omap app last files set_files tick].
  all: split; [reflexivity|].
  all: split; [|split; [|split; [|split]]].
  all: try (intros; discriminate).
  all: naive_solver.
Qed.
(** *** What a run writes, creates and requests *)

Lemma len_features_ok g w n :
  outcome (len_features g w) = Ok n -> n = length (features_of g).
Proof.
  destruct g as [fs|d]; simpl; [by intros [= <-]|].
  destruct (get_default (features d) []); simpl; [by intros [= <-]|done].
Qed.

Lemma execute_download_nonempty clean_s_name l_id l_name full_layer_url
    should_download ids total_count :
  emits nonempty_save_event
    (execute_download clean_s_name l_id l_name full_layer_url
       should_download ids total_count).
Proof.
  unfold execute_download. destruct should_download; [|apply emits_ret].
  apply emits_bind.
  - unfold download_in_chunks, download_chunk, simple_download.
    repeat emits_step; done.
  - intros [g|]; [|by apply emits_emit].
    apply emits_bind_ok; [unfold len_features; by repeat emits_step|].
    intros w n Hn. apply len_features_ok in Hn as ->.
    destruct (0 <? length (features_of g)) eqn:E; [|by apply emits_emit].
    apply emits_bind; [|intros; by apply emits_emit].
    apply emits_write_file. exists g. split; [done|].
    intros Hnil. by rewrite Hnil in E.
Qed.

Lemma main_nonempty_saves : emits nonempty_save_event main.
Proof.
  unfold main, visit_service, scan_service, check_layer, get_layer_ids.
  repeat emits_step; try done.
  all: apply execute_download_nonempty.
Qed.

(** X5.  A run never writes a file for an empty result: the content of
    every file written is the serialisation of a FeatureCollection or of a
    received document that holds at least one feature. *)
Theorem never_saves_empty_result (w : World) :
  Forall (fun pc => exists g, pc.2 = json_dump g /\ features_of g <> [])
         (saves_of (events (main w))).
Proof.
  apply (saves_of_Forall
           (fun pc => exists g, pc.2 = json_dump g /\ features_of g <> [])).
  apply main_nonempty_saves.
Qed.

Lemma makedirs_of_none evs : Forall not_makedirs evs -> makedirs_of evs = [].
Proof.
  induction 1 as [|e evs He _ IH]; [done|]. destruct e; try done; exact IH.
Qed.

Lemma visit_service_no_makedirs service :
  emits not_makedirs (visit_service service).
Proof.
  unfold visit_service, scan_service, check_layer, get_layer_ids,
    execute_download, download_in_chunks, download_chunk, simple_download.
  repeat emits_step; done.
Qed.

(** X7.  The only folder a run creates is the download folder, and only
    when it does not exist yet; creating it is then the first thing the run
    does. *)
Theorem creates_download_folder_only_when_absent (w : World) :
  makedirs_of (events (main w))
  = (if folder_exists w then [] else [DOWNLOAD_FOLDER])
  /\ (folder_exists w = false ->
      exists rest, events (main w) = MakeDirs DOWNLOAD_FOLDER :: rest).
Proof.
  rewrite main_run.
  assert (Hpre : forall tail, makedirs_of tail = [] ->
    makedirs_of (preamble w ++ tail)
    = (if folder_exists w then [] else [DOWNLOAD_FOLDER])).
  { intros tail Ht. unfold makedirs_of in *. rewrite omap_app, Ht.
    unfold preamble. by destruct (folder_exists w). }
  destruct (catalog_services _) as [[entries|]|e].
  - pose proof (makedirs_of_none _
                  (emits_for_each not_makedirs entries visit_service
                     visit_service_no_makedirs (tick (with_folder w))))
      as Hscan.
    cbv zeta. destruct (outcome _); unfold events at 1 3; cbn [snd].
    + split.
      * apply Hpre. unfold makedirs_of in *. by rewrite omap_app, Hscan.
      * intros Hf. unfold preamble. rewrite Hf. by eexists.
    + split.
      * by apply Hpre.
      * intros Hf. unfold preamble. rewrite Hf. by eexists.
  - unfold events; cbn [snd]. split.
    + rewrite <- (app_nil_r (preamble w)). by apply Hpre.
    + intros Hf. unfold preamble. rewrite Hf. by eexists.
  - unfold events; cbn [snd]. split; [by apply Hpre|].
    intros Hf. unfold preamble. rewrite Hf. by eexists.
Qed.

Lemma startswith_app p s t :
  startswith p s = true -> startswith p (s ++ t) = true.
Proof.
  rewrite !startswith_spec. intros [post ->]. exists (post ++ t).
  by rewrite app_assoc.
Qed.

Lemma startswith_refl_app p s : startswith p (p ++ s) = true.
Proof. apply startswith_spec. by exists s. Qed.

Lemma check_layer_rooted clean_s_name service_url layer :
  startswith services_root service_url = true ->
  emits rooted_request_event (check_layer clean_s_name service_url layer).
Proof.
  intros Hroot.
  unfold check_layer, get_layer_ids, execute_download, download_in_chunks,
    download_chunk, simple_download.
  repeat emits_step; try done.
  all: cbn [rooted_request_event url]; by repeat apply startswith_app.
Qed.

Lemma main_rooted : emits rooted_request_event main.
Proof.
  unfold main, visit_service, scan_service.
  repeat emits_step; try done.
  apply check_layer_rooted, startswith_refl_app.
Qed.

(** X8.  Every request of a run goes to an address below
    https://gis.unocha.org/server/rest/services/: the catalog, the layer
    lists, the ID queries and the downloads. *)
Theorem requests_stay_below_services_root (w : World) :
  Forall (fun req => startswith services_root (url req) = true)
         (requests_of (events (main w))).
Proof.
  pose proof (main_rooted w) as H.
  induction H as [|e evs He _ IH]; [constructor|].
  destruct e; try exact IH. by constructor.
Qed.

(** *** [sanitize_filename] and the file path *)

Lemma safe_char_underscore : safe_char 95 = true.
Proof. reflexivity. Qed.

Lemma sanitize_filename_fixed (name : pystr) :
  sanitize_filename name = name <-> forallb safe_char name = true.
Proof.
  induction name as [|c name IH]; [done|]. simpl.
  rewrite andb_true_iff, <- IH. destruct (safe_char c) eqn:E.
  - split; [intros [= ->]; done|intros [_ ->]; done].
  - split; [|by intros [? _]]. intros [= <- _].
    by rewrite safe_char_underscore in E.
Qed.

(** X9.  [sanitize_filename] keeps the length of a name and changes a
    character only into an underscore; applying it twice is the same as
    applying it once, and it leaves a name unchanged exactly when all its
    characters are safe.  An ASCII character of the result is a letter, a
    digit, or one of "-", "_", "." and the space, so the result holds no
    slash, backslash, colon or control character. *)
Theorem sanitize_filename_properties (name : pystr) :
  length (sanitize_filename name) = length name
  /\ sanitize_filename (sanitize_filename name) = sanitize_filename name
  /\ (sanitize_filename name = name <-> forallb safe_char name = true)
  /\ (forall i c, sanitize_filename name !! i = Some c ->
                  name !! i = Some c \/ c = 95%N)
  /\ (forall c, In c (sanitize_filename name) -> is_ascii c = true ->
                ascii_isalnum c = true
                \/ c = 45%N \/ c = 95%N \/ c = 46%N \/ c = 32%N).
Proof.
  split; [apply length_map|]. split; [|split; [|split]].
  - apply sanitize_filename_fixed, safe_sanitize_filename.
  - apply sanitize_filename_fixed.
  - intros i c. unfold sanitize_filename. rewrite list_lookup_fmap.
    destruct (name !! i) as [c'|]; [|done]. simpl.
    destruct (safe_char c'); intros [= <-]; auto.
  - intros c Hin Ha.
    pose proof (safe_sanitize_filename name) as Hs.
    rewrite forallb_forall in Hs. specialize (Hs c Hin).
    unfold safe_char, is_word in Hs. rewrite Ha in Hs.
    rewrite !orb_true_iff, !N.eqb_eq in Hs. tauto.
Qed.

Lemma layer_filename_slash clean_s_name l_id l_name :
  startswith (py "/") (layer_filename clean_s_name l_id l_name)
  = startswith (py "/") clean_s_name.
Proof.
  unfold layer_filename. destruct clean_s_name as [|c cl]; [reflexivity|].
  change (py "/") with [47%N]. simpl. by destruct (47 =? c)%N.
Qed.

(** X10.  A layer is saved inside the download folder, under
    "downloads_qgis_ready/" followed by its file name, unless the cleaned
    service name begins with a slash: the path is then the file name alone,
    an absolute path outside the folder. *)
Theorem layer_path_location
    (clean_s_name : pystr) (l_id : Z) (l_name : pystr) :
  layer_path clean_s_name l_id l_name =
  if startswith (py "/") clean_s_name
  then layer_filename clean_s_name l_id l_name
  else py "downloads_qgis_ready/" ++ layer_filename clean_s_name l_id l_name.
Proof.
  unfold layer_path, path_join. rewrite layer_filename_slash.
  destruct (startswith (py "/") clean_s_name); [done|].
  change (str_eq DOWNLOAD_FOLDER [] ||
          str_eq (drop (length DOWNLOAD_FOLDER - 1) DOWNLOAD_FOLDER) (py "/"))
    with false.
  cbv iota. rewrite app_assoc. reflexivity.
Qed.

(** *** Cleaning the service name *)

Lemma replace_from_skip old new pre s :
  replace_from old new (length pre) (pre ++ s) = replace_from old new 0 s.
Proof. induction pre as [|c pre IH]; [done|]. exact IH. Qed.

Lemma replace_from_absent old new s :
  contains old s = false -> replace_from old new 0 s = s.
Proof.
  induction s as [|c s IH]; [done|]. cbn [contains].
  rewrite orb_false_iff. intros [Hs Hc].
  cbn [replace_from]. rewrite Hs. by rewrite IH.
Qed.

(** X11.  Replacing a non-empty [old] in a string that does not contain it
    changes nothing, and in [old] followed by such a string it replaces just
    that leading occurrence.  So a catalog name "Hosted/<rest>" whose rest
    holds no further "Hosted/" is cleaned to the rest, and a name without
    "Hosted/" is its own cleaned name. *)
Theorem replace_leading_occurrence (old new s : pystr) :
  old <> [] ->
  contains old s = false ->
  replace old new s = s
  /\ replace old new (old ++ s) = new ++ s.
Proof.
  intros Hold Hs. split; [by apply replace_from_absent|].
  unfold replace. destruct old as [|a old]; [done|].
  cbn [app replace_from].
  assert (startswith (a :: old) (a :: old ++ s) = true) as ->.
  { apply (startswith_refl_app (a :: old) s). }
  replace (length (a :: old) - 1) with (length old) by (simpl; lia).
  rewrite replace_from_skip.
  by rewrite replace_from_absent.
Qed.

(** *** Failures inside a service *)

(** X12.  The inspection of a service never raises.  When the layer-list
    request raises or its reply is not JSON, the error is printed with the
    service name and no layer is looked at; when the reply is JSON without a
    [layers] key the service is passed over without a word.  The status code
    of the reply plays no role. *)
Theorem layer_list_failure_skips_service (s_name : pystr) (w : World) :
  let reply := remote (calls w) (service_request s_name) in
  outcome (scan_service s_name w) = Ok tt
  /\ (forall e,
        reply = Raised e
        \/ (exists c, reply = Answered {| status_code := c;
                                          body := NotJson e |}) ->
        scan_service s_name w
        = (Ok tt, tick w,
           [Get (service_request s_name); Print (scan_error_line s_name e)]))
  /\ (forall c d,
        reply = Answered {| status_code := c; body := Json d |} ->
        layers d = None ->
        scan_service s_name w = (Ok tt, tick w, [Get (service_request s_name)])).
Proof.
  intros reply. split; [apply scan_service_ok|].
  rewrite scan_service_run. fold reply. split.
  - intros e [->|[c ->]]; done.
  - intros c d -> Hl. by rewrite Hl.
Qed.

(** X13.  When the check of a layer raises (the prompt meets the end of
    input, the unpaginated download fails, the file cannot be opened), the
    layers after it in the same service are not looked at: the inspection
    ends with the events of the layers up to the failing one and the error
    line of the service, and returns normally. *)
Theorem failing_layer_ends_service
    (s_name : pystr) (c : Z) (d : Doc)
    (before after : list Layer) (layer : Layer) (e : pystr) (w : World) :
  let body := check_layer (replace (py "Hosted/") [] s_name)
                (service_url_of s_name) in
  let earlier := for_each before body (tick w) in
  let failing := body layer (world_after earlier) in
  remote (calls w) (service_request s_name)
  = Answered {| status_code := c; body := Json d |} ->
  layers d = Some (before ++ layer :: after) ->
  outcome earlier = Ok tt ->
  outcome failing = Exn e ->
  scan_service s_name w
  = (Ok tt, world_after failing,
     [Get (service_request s_name)] ++ events earlier ++ events failing
     ++ [Print (scan_error_line s_name e)]).
Proof.
  intros body earlier failing Hreply Hl Hbefore Hfail.
  rewrite scan_service_run, Hreply, Hl. fold body.
  rewrite for_each_app. fold earlier.
  unfold outcome, world_after, events in *.
  destruct earlier as [[r w1] e1]. cbn [fst snd] in *. subst r.
  rewrite (for_each_raise layer after body w1 e Hfail).
  fold failing. unfold world_after, events.
  destruct failing as [[r w2] e2]. cbn [fst snd] in *.
  by rewrite <- app_assoc.
Qed.

(** *** The catalog *)

(** X14.  When the catalog request raises or its reply is not JSON, the run
    prints the connection error and ends: the catalog request is its only
    request, nothing is asked and nothing is written.  A JSON catalog
    without a [services] key counts as an empty catalog: the run goes
    straight to the completion message.  The status code of the catalog
    reply plays no role. *)
Theorem catalog_edge_cases (w : World) :
  let reply := remote (calls w) catalog_request in
  (forall e,
      reply = Raised e
      \/ (exists c, reply = Answered {| status_code := c;
                                        body := NotJson e |}) ->
      main w = (Ok tt, tick (with_folder w),
                preamble w ++ [Print (connect_error_line e)])
      /\ requests_of (events (main w)) = [catalog_request]
      /\ prompts_of (events (main w)) = []
      /\ saves_of (events (main w)) = []
      /\ files (world_after (main w)) = files w)
  /\ (forall c d,
        reply = Answered {| status_code := c; body := Json d |} ->
        services d = None \/ services d = Some (Some []) ->
        main w = (Ok tt, tick (with_folder w), preamble w ++ [Print done_line])).
Proof.
  intros reply. rewrite main_run. fold reply. split.
  - intros e Hr.
    assert (catalog_services reply = Exn e) as ->.
    { destruct Hr as [->|[c ->]]; done. }
    split; [done|]. unfold events, world_after, preamble, with_folder.
    cbn [fst snd]. destruct (folder_exists w); done.
  - intros c d -> Hs.
    assert (get_default (services d) [] = Some []) as Hnil.
    { destruct Hs as [->| ->]; done. }
    unfold catalog_services. cbn [body]. rewrite Hnil. done.
Qed.

(** *** [download_in_chunks] as a function of its three arguments *)

(** X15.  The number of chunk requests depends on [total_count] alone: it
    is ceil(total_count/1000), and the k-th request carries the window
    [all_ids[1000k : 1000k + 1000]].  Together the windows are the first
    [1000 * ceil(total_count/1000)] identifiers, so identifiers beyond that
    are never requested; a window that starts at or after the end of the
    list is empty; and with [total_count = 0] nothing is requested and the
    result is the empty FeatureCollection. *)
Theorem chunk_requests_follow_total_count
    (layer_url : pystr) (all_ids : list Z) (total_count : nat) (w : World) :
  let run := download_in_chunks layer_url all_ids total_count w in
  let n := length (requests_of (events run)) in
  total_count <= chunk_size * n < total_count + chunk_size
  /\ requests_of (events run)
     = map (fun k => chunk_request layer_url
                       (take chunk_size (drop (k * chunk_size) all_ids)))
           (seq 0 n)
  /\ concat (map (fun k => take chunk_size (drop (k * chunk_size) all_ids))
                 (seq 0 n))
     = take (n * chunk_size) all_ids
  /\ (forall k, length all_ids <= k * chunk_size ->
                take chunk_size (drop (k * chunk_size) all_ids) = [])
  /\ (total_count = 0 ->
      run = (Ok (FeatureCollection []), w,
             [Print (downloading_line 0); Print []])).
Proof.
  intros run n.
  destruct (download_in_chunks_run layer_url all_ids total_count w)
    as (w' & evs & Hrun & _ & Hreq & _).
  assert (Hall : requests_of (events run)
    = map (fun k => chunk_request layer_url
                      (take chunk_size (drop (k * chunk_size) all_ids)))
          (seq 0 (div_up total_count chunk_size))).
  { subst run. rewrite Hrun. unfold events, requests_of in *. cbn [snd].
    change (omap ?f (Print ?t :: ?l)) with (omap f l).
    rewrite omap_app, Hreq. simpl omap. rewrite app_nil_r.
    rewrite range_eq by apply chunk_size_pos. by rewrite map_map. }
  assert (Hn : n = div_up total_count chunk_size).
  { subst n. by rewrite Hall, length_map, length_seq. }
  split; [rewrite Hn; apply div_up_bounds, chunk_size_pos|].
  split; [by rewrite Hn|].
  split; [apply concat_windows|].
  split.
  - intros k Hk. by rewrite drop_ge.
  - intros ->. reflexivity.
Qed.

(** *** Progress reports and pauses *)

Lemma chunk_loop_reports layer_url all_ids total_count offs acc w :
  let replies :=
    imap (fun k i => remote (calls w + k)
                       (chunk_request layer_url (chunk_of all_ids i))) offs in
  let evs := (for_fold offs (download_chunk layer_url all_ids total_count)
                acc w).2 in
  progress_of evs
  = map (fun n => (n, total_count)) (running_counts (length acc) replies)
  /\ pauses_of evs
     = length (List.filter (fun r => negb (chunk_raised r)) replies).
Proof.
  revert acc w. induction offs as [|i offs IH]; intros acc w; [done|].
  cbv zeta. rewrite imap_cons. simpl for_fold. rewrite Nat.add_0_r.
  pose proof (download_chunk_run layer_url all_ids total_count acc i w) as Hs.
  cbv zeta in Hs. set (reply := remote (calls w) _) in *.
  rewrite (run_bind_ok _ _ _ _ _ _ Hs). cbn [snd].
  specialize (IH (acc ++ returned_features reply) (tick w)). cbv zeta in IH.
  rewrite (imap_ext _ (fun k i0 => remote (calls (tick w) + k)
             (chunk_request layer_url (chunk_of all_ids i0)))) by
    (intros; simpl; f_equal; lia).
  destruct IH as [IHp IHs].
  unfold progress_of, pauses_of in *. rewrite !omap_app, length_app, IHp, IHs.
  rewrite length_app. unfold chunk_events, chunk_raised. cbn [running_counts filter List.filter].
  destruct reply as [e|[c [e|d]]];
    cbn [chunk_exception chunk_ok returned_features];
    [| |destruct (get_default (features d) [])].
  all: try destruct (c =? 200)%Z; simpl.
  all: by rewrite ?Nat.add_0_r, ?length_app.
Qed.

Lemma download_in_chunks_events layer_url all_ids total_count w :
  events (download_in_chunks layer_url all_ids total_count w)
  = Print (downloading_line total_count)
    :: (for_fold (range 0 total_count chunk_size)
          (download_chunk layer_url all_ids total_count) [] w).2
    ++ [Print []].
Proof.
  destruct (chunk_loop_run layer_url all_ids total_count
              (range 0 total_count chunk_size) [] w)
    as (w' & evs & Hloop & _).
  unfold download_in_chunks, events. rewrite run_bind.
  unfold print at 1, emit at 1. rewrite run_bind, Hloop. reflexivity.
Qed.

Lemma running_counts_bounds acc replies :
  let final := acc + length (concat (map returned_features replies)) in
  Forall (fun n => acc <= n <= final) (running_counts acc replies)
  /\ StronglySorted le (running_counts acc replies)
  /\ length (running_counts acc replies) = length (List.filter chunk_ok replies)
  /\ (running_counts acc replies <> [] ->
      last (running_counts acc replies) = Some final).
Proof.
  revert acc. induction replies as [|r rs IH]; intros acc final.
  - repeat split; [constructor|constructor|done].
  - subst final. simpl. destruct (chunk_ok r) eqn:E.
    + destruct (IH (acc + length (returned_features r)))
        as (Hb & Hs & Hl & Hlast).
      rewrite length_app, Nat.add_assoc in *. repeat split.
      * constructor; [lia|]. eapply Forall_impl; [exact Hb|].
        simpl. intros n ?. lia.
      * constructor; [done|]. eapply Forall_impl; [exact Hb|].
        simpl. intros n ?. lia.
      * simpl. by rewrite Hl.
      * intros _.
        destruct (running_counts (acc + length (returned_features r)) rs)
          as [|n ns] eqn:Hrc.
        -- simpl. f_equal.
           assert (length (List.filter chunk_ok rs) = 0) as Hz
             by (by rewrite <- Hl).
           assert (concat (map returned_features rs) = []) as ->; [|simpl; lia].
           rewrite concat_returned_ok.
           by destruct (List.filter chunk_ok rs).
        -- rewrite last_cons. by rewrite Hlast.
    + rewrite (failed_chunk_returns_nothing r E). simpl. apply IH.
Qed.

(** X16.  In a chunked download a progress report follows every successful
    chunk and no other: each report shows the number of features collected
    so far out of [total_count]; the numbers never decrease, none exceeds
    the number of features of the result, and the last report shows exactly
    that number. *)
Theorem progress_reports_are_cumulative
    (layer_url : pystr) (all_ids : list Z) (w : World) :
  let run := download_in_chunks layer_url all_ids (length all_ids) w in
  let replies := chunk_replies layer_url all_ids (calls w) in
  let progress := progress_of (events run) in
  let final := feature_count (outcome run) in
  length progress = length (List.filter chunk_ok replies)
  /\ Forall (fun p => p.1 <= final /\ p.2 = length all_ids) progress
  /\ StronglySorted le (map fst progress)
  /\ (progress <> [] -> last progress = Some (final, length all_ids)).
Proof.
  intros run replies progress final.
  destruct (download_in_chunks_run layer_url all_ids (length all_ids) w)
    as (w' & evs & Hrun & _).
  pose proof (chunk_loop_reports layer_url all_ids (length all_ids)
                (range 0 (length all_ids) chunk_size) [] w) as [Hp _].
  cbv zeta in Hp. rewrite <- chunk_replies_eq in Hp. fold replies in Hp.
  assert (Hprog : progress
    = map (fun n => (n, length all_ids)) (running_counts 0 replies)).
  { subst progress run. rewrite download_in_chunks_events.
    unfold progress_of in *.
    change (omap ?f (Print ?t :: ?l)) with (omap f l).
    rewrite omap_app, Hp. simpl. by rewrite app_nil_r. }
  assert (Hfinal : final = length (concat (map returned_features replies))).
  { subst final run replies. rewrite Hrun, chunk_replies_eq. done. }
  pose proof (running_counts_bounds 0 replies) as (Hb & Hs & Hl & Hlast).
  cbv zeta in Hb, Hlast. simpl in Hb, Hlast. rewrite <- Hfinal in Hb, Hlast.
  rewrite Hprog. split; [by rewrite length_map|]. split; [|split].
  - apply Forall_map. eapply Forall_impl; [exact Hb|]. simpl. intros n ?.
    split; [lia|done].
  - rewrite map_map. simpl. by rewrite map_id.
  - intros Hne.
    destruct (running_counts 0 replies) as [|n ns] eqn:Hrc; [done|].
    change (map (fun n => (n, length all_ids)) (n :: ns))
      with ((fun n => (n, length all_ids)) <$> (n :: ns)).
    by rewrite fmap_last, Hlast.
Qed.

(** X17.  In a chunked download the 100 ms pause follows every chunk
    request that did not end in an exception, a reply with a status other
    than 200 included, and no pause follows a request that did. *)
Theorem pause_after_every_answered_chunk
    (layer_url : pystr) (all_ids : list Z) (w : World) :
  let run := download_in_chunks layer_url all_ids (length all_ids) w in
  let replies := chunk_replies layer_url all_ids (calls w) in
  pauses_of (events run)
  = length (List.filter (fun r => negb (chunk_raised r)) replies)
  /\ pauses_of (events run) + length (List.filter chunk_raised replies)
     = length (requests_of (events run)).
Proof.
  intros run replies.
  destruct (download_in_chunks_run layer_url all_ids (length all_ids) w)
    as (w' & evs & Hrun & _ & Hreq & _).
  pose proof (chunk_loop_reports layer_url all_ids (length all_ids)
                (range 0 (length all_ids) chunk_size) [] w) as [_ Hp].
  cbv zeta in Hp. rewrite <- chunk_replies_eq in Hp. fold replies in Hp.
  assert (Hpauses : pauses_of (events run)
    = length (List.filter (fun r => negb (chunk_raised r)) replies)).
  { subst run. rewrite download_in_chunks_events. rewrite <- Hp.
    unfold pauses_of. change (omap ?f (Print ?t :: ?l)) with (omap f l).
    rewrite omap_app. simpl. by rewrite app_nil_r. }
  assert (Hlen : length (requests_of (events run)) = length replies).
  { subst run replies. rewrite Hrun. unfold events, requests_of in *.
    cbn [snd]. change (omap ?f (Print ?t :: ?l)) with (omap f l).
    rewrite omap_app, Hreq. simpl. rewrite app_nil_r.
    by rewrite chunk_replies_eq, length_map, length_imap. }
  rewrite Hpauses, Hlen. split; [done|].
  clear. induction replies as [|r rs IH]; [done|]. simpl.
  destruct (chunk_raised r); simpl; lia.
Qed.

(** *** What a chunked download never does *)

(** X18.  Whatever [total_count] and whatever the replies,
    [download_in_chunks] returns a FeatureCollection: it never raises, shows
    no prompt, writes no file, and leaves standard input and the download
    folder as they were. *)
Theorem download_in_chunks_never_raises
    (layer_url : pystr) (all_ids : list Z) (total_count : nat) (w : World) :
  let run := download_in_chunks layer_url all_ids total_count w in
  (exists fs, outcome run = Ok (FeatureCollection fs))
  /\ prompts_of (events run) = []
  /\ saves_of (events run) = []
  /\ stdin (world_after run) = stdin w
  /\ files (world_after run) = files w
  /\ folder_exists (world_after run) = folder_exists w.
Proof.
  intros run.
  destruct (download_in_chunks_run layer_url all_ids total_count w)
    as (w' & evs & Hrun & (_ & Hst & Hfo & Hfi) & _ & _ & Hpr & Hsv).
  subst run. rewrite Hrun. unfold outcome, events, world_after. cbn [fst snd].
  split; [by eexists|].
  unfold prompts_of, saves_of in *.
  change (omap ?f (Print ?t :: ?l)) with (omap f l).
  by rewrite !omap_app, Hpr, Hsv.
Qed.

(** *** The [objectIds] parameter *)

Lemma py_inj (s t : string) : py s = py t -> s = t.
Proof.
  unfold py. intros H.
  rewrite <- (string_of_list_ascii_of_string s),
          <- (string_of_list_ascii_of_string t).
  f_equal. revert H.
  generalize (list_ascii_of_string s) (list_ascii_of_string t).
  induction l as [|a l IH]; intros [|b l']; simpl; try done.
  intros [= Hab Hl]. f_equal; [|by apply IH].
  by rewrite <- (ascii_N_embedding a), <- (ascii_N_embedding b), Hab.
Qed.

Lemma to_int_not_nil (z : Z) :
  Z.to_int z <> Decimal.Pos Decimal.Nil /\ Z.to_int z <> Decimal.Neg Decimal.Nil.
Proof.
  split; intros H; pose proof (DecimalZ.of_to z) as Hz; rewrite H in Hz;
    simpl in Hz; subst z; discriminate H.
Qed.

Lemma str_Z_inj (a b : Z) : str_Z a = str_Z b -> a = b.
Proof.
  unfold str_Z. intros H. apply py_inj in H.
  destruct (to_int_not_nil a) as [Ha1 Ha2], (to_int_not_nil b) as [Hb1 Hb2].
  pose proof (NilZero.isi (Z.to_int a) Ha1 Ha2) as E1.
  pose proof (NilZero.isi (Z.to_int b) Hb1 Hb2) as E2.
  rewrite H, E2 in E1. injection E1 as E.
  by rewrite <- (DecimalZ.of_to a), <- (DecimalZ.of_to b), E.
Qed.

Lemma uint_no_comma (d : Decimal.uint) :
  Forall (fun c => c <> 44%N) (py (NilEmpty.string_of_uint d)).
Proof.
  induction d; simpl; rewrite ?py_cons; constructor; done.
Qed.

Lemma str_Z_no_comma (z : Z) : Forall (fun c => c <> 44%N) (str_Z z).
Proof.
  unfold str_Z, NilZero.string_of_int, NilZero.string_of_uint.
  destruct (Z.to_int z) as [d|d].
  - destruct d; try apply uint_no_comma. by repeat constructor.
  - rewrite py_cons. constructor; [done|].
    destruct d; try apply uint_no_comma. by repeat constructor.
Qed.

Lemma str_Z_nonempty (z : Z) : str_Z z <> [].
Proof.
  unfold str_Z, NilZero.string_of_int, NilZero.string_of_uint.
  destruct (Z.to_int z) as [d|d]; [|done]. by destruct d.
Qed.

(** Two strings without separator followed by the separator or the end:
    they agree and so do the rests. *)
Lemma split_at_separator (c : N) (p q r r' : pystr) :
  Forall (fun x => x <> c) p -> Forall (fun x => x <> c) q ->
  p ++ c :: r = q ++ c :: r' -> p = q /\ r = r'.
Proof.
  intros Hp. revert q. induction Hp as [|x p Hx _ IH]; intros q Hq H.
  - destruct Hq as [|y q Hy _]; simpl in H; [by injection H|].
    injection H as <- _. done.
  - destruct Hq as [|y q Hy Hq]; simpl in H.
    + injection H as -> _. done.
    + injection H as <- H. destruct (IH q Hq H) as [-> ->]. done.
Qed.

Lemma no_separator_inside (c : N) (p q r : pystr) :
  Forall (fun x => x <> c) p -> p <> q ++ c :: r.
Proof.
  intros Hp ->. apply Forall_app in Hp as [_ Hp].
  apply Forall_cons in Hp as [Hc _]. done.
Qed.

Lemma join_inj (c : N) (ps qs : list pystr) :
  Forall (fun p => p <> [] /\ Forall (fun x => x <> c) p) ps ->
  Forall (fun p => p <> [] /\ Forall (fun x => x <> c) p) qs ->
  join [c] ps = join [c] qs -> ps = qs.
Proof.
  intros Hps. revert qs.
  induction Hps as [|p ps [Hpn Hp] Hps IH]; intros qs Hqs H.
  - destruct Hqs as [|q qs [Hqn Hq] Hqs]; [done|].
    simpl in H. destruct qs; [congruence|].
    symmetry in H. by apply app_eq_nil in H as [? _].
  - destruct Hqs as [|q qs [Hqn Hq] Hqs].
    + simpl in H. destruct ps; [congruence|].
      by apply app_eq_nil in H as [? _].
    + destruct ps as [|p' ps], qs as [|q' qs]; simpl in H.
      * by subst.
      * exfalso. by apply (no_separator_inside c p q (join [c] (q' :: qs))).
      * exfalso. symmetry in H.
        by apply (no_separator_inside c q p (join [c] (p' :: ps))).
      * apply split_at_separator in H as [-> H]; [|done..].
        f_equal. by apply IH.
Qed.

(** X19.  The [objectIds] parameter of a chunk request determines the
    identifiers it was built from: two windows of identifiers give the same
    request parameters only if they are the same window. *)
Theorem object_ids_parameter_determines_window (a b : list Z) :
  chunk_params a = chunk_params b -> a = b.
Proof.
  unfold chunk_params. intros [= H].
  assert (Hall : forall l : list Z,
    Forall (fun p => p <> [] /\ Forall (fun x => x <> 44%N) p)
           (map str_Z l)).
  { intros l. apply Forall_map, Forall_forall. intros z _.
    split; [apply str_Z_nonempty|apply str_Z_no_comma]. }
  apply (join_inj 44%N _ _ (Hall a) (Hall b)) in H.
  revert b H. induction a as [|x a IH]; intros [|y b]; simpl; try done.
  intros [= Hxy Hab]. f_equal; [by apply str_Z_inj|by apply IH].
Qed.

End Downloader.

(** ** The properties on concrete runs *)

(** A Unicode database that is not consulted on ASCII input. *)
Definition plain_lower (s : pystr) : pystr := s.
Definition plain_class (c : N) : bool := false.

(** Features are numbered; every path can be written. *)
Definition dump_numbers (g : GeoJson nat) : pystr :=
  match g with
  | FeatureCollection _ fs =>
      py "FeatureCollection " ++ join (py ",") (map str_nat fs)
  | Document _ _ => py "Document"
  end.
Definition writable (path : pystr) : option pystr := None.

Definition run_main (remote : nat -> Request -> Reply nat) : M unit :=
  main plain_lower plain_class plain_class nat remote dump_numbers writable.

Definition run_check_layer (remote : nat -> Request -> Reply nat)
  : pystr -> pystr -> Layer -> M unit :=
  check_layer plain_lower plain_class plain_class nat remote dump_numbers
    writable.

(** A first run: nothing requested yet, no download folder. *)
Definition fresh (lines : list pystr) : World :=
  {| calls := 0; stdin := lines; folder_exists := false; files := ∅ |}.

Definition doc (svcs : option (list Service)) (ls : option (list Layer))
    (ids : option (option (list Z))) (fs : option (list nat)) : Reply nat :=
  Answered nat
    {| status_code := 200;
       body := Json nat {| services := option_map
                                         (fun l => Some (map entry_of l)) svcs;
                           layers := ls;
                           objectIds := ids;
                           features := option_map Some fs |} |}.

Definition checkpoints : Layer := {| lyr_id := 0; lyr_name := py "Checkpoints" |}.
Definition gaza_url : pystr := service_url_of (py "Hosted/Gaza_Checkpoints").

(** A layer of three features: the ID query, then the chunk. *)
Definition small_layer (n : nat) (req : Request) : Reply nat :=
  match n with
  | 0 => doc None None (Some (Some [1; 2; 3]%Z)) None
  | _ => doc None None None (Some [7; 8; 9])
  end.

(** A layer of 100001 features, each chunk answering with one feature. *)
Definition large_ids : list Z := repeat 7%Z (Z.to_nat 100001).
Definition large_layer (n : nat) (req : Request) : Reply nat :=
  match n with
  | 0 => doc None None (Some (Some large_ids)) None
  | _ => doc None None None (Some [n])
  end.

(** A server that answers every chunk with status 503. *)
Definition unavailable (n : nat) (req : Request) : Reply nat :=
  Answered nat {| status_code := 503;
                  body := NotJson nat (py "Service Unavailable") |}.

(** A server whose every request times out. *)
Definition timing_out (n : nat) (req : Request) : Reply nat :=
  Raised nat (py "timed out").

Definition layer0_url : pystr := gaza_url ++ py "/0".

(** A catalog of three services, of which one passes both filters. *)
Definition three_services : list Service :=
  [ {| svc_name := py "Hosted/Gaza_Checkpoints"; svc_type := py "FeatureServer" |};
    {| svc_name := py "Hosted/Population"; svc_type := py "FeatureServer" |};
    {| svc_name := py "Hosted/Road_Map"; svc_type := py "MapServer" |} ].

Definition checkpoints_site (n : nat) (req : Request) : Reply nat :=
  match n with
  | 0 => doc (Some three_services) None None None
  | 1 => doc None (Some [checkpoints]) None None
  | 2 => doc None None (Some (Some [1; 2; 3]%Z)) None
  | _ => doc None None None (Some [7; 8; 9])
  end.

(** A catalog whose only service has a plus sign in its name. *)
Definition plus_site (n : nat) (req : Request) : Reply nat :=
  match n with
  | 0 => doc (Some [ {| svc_name := py "Hosted/Gaza+Roads";
                        svc_type := py "FeatureServer" |} ]) None None None
  | 1 => doc None (Some [ {| lyr_id := 0; lyr_name := py "Roads" |} ]) None None
  | 2 => doc None None (Some (Some [1; 2; 3]%Z)) None
  | _ => doc None None None (Some [7; 8; 9])
  end.



(** The folder a first run against [checkpoints_site] leaves behind. *)
Definition second_run : World :=
  {| calls := 0; stdin := []; folder_exists := true;
     files := files (world_after (run_main checkpoints_site (fresh []))) |}.

(** C2 on the layer of three features. *)
Lemma small_layer_downloads_without_prompt_witness :
  ids_query_returns nat small_layer layer0_url (fresh []) [1; 2; 3]%Z
  /\ prompts_of (events (run_check_layer small_layer (py "Gaza_Checkpoints")
                           gaza_url checkpoints (fresh []))) = [].
Proof.
  assert (H : ids_query_returns nat small_layer layer0_url (fresh [])
                [1; 2; 3]%Z).
  { eexists. split; reflexivity. }
  split; [exact H|].
  refine (proj1 (proj2 (small_layer_downloads_without_prompt plain_lower
    plain_class plain_class nat small_layer dump_numbers writable
    (py "Gaza_Checkpoints") gaza_url checkpoints [1; 2; 3]%Z (fresh []) H)
    _ _)).
  - simpl. lia.
  - unfold LARGE_LAYER_THRESHOLD. simpl. lia.
Defined.

(** C3 as stated fails: the line "Y" is neither "y" nor "n", yet it is
    accepted at the first prompt and the layer of 100001 features is
    downloaded in 101 chunk requests and saved. *)
Lemma large_layer_uppercase_answer_accepted :
  let run := run_check_layer large_layer (py "Gaza_Checkpoints") gaza_url
               checkpoints (fresh [py "Y"]) in
  py "Y" <> py "y" /\ py "Y" <> py "n"
  /\ (LARGE_LAYER_THRESHOLD < Z.of_nat (length large_ids))%Z
  /\ prompts_of (events run) = [large_prompt]
  /\ length (requests_of (events run)) = 102
  /\ length (saves_of (events run)) = 1.
Proof. vm_compute. repeat split; discriminate. Qed.

(** C3 on the layer of 100001 features, answered "maybe" and then " Y ". *)
Lemma large_layer_needs_confirmation_witness :
  ids_query_returns nat large_layer layer0_url
    (fresh [py "maybe"; py " Y "]) large_ids
  /\ (LARGE_LAYER_THRESHOLD < Z.of_nat (length large_ids))%Z
  /\ prompts_of (events (run_check_layer large_layer (py "Gaza_Checkpoints")
                           gaza_url checkpoints
                           (fresh [py "maybe"; py " Y "])))
     = [large_prompt; large_prompt].
Proof.
  assert (H : ids_query_returns nat large_layer layer0_url
                (fresh [py "maybe"; py " Y "]) large_ids).
  { eexists. split; reflexivity. }
  assert (Hbig : (LARGE_LAYER_THRESHOLD < Z.of_nat (length large_ids))%Z).
  { vm_compute. reflexivity. }
  split; [exact H|]. split; [exact Hbig|].
  refine (proj1 (proj1 (large_layer_needs_confirmation plain_lower
    plain_class plain_class nat large_layer dump_numbers writable
    (py "Gaza_Checkpoints") gaza_url checkpoints large_ids
    (fresh [py "maybe"; py " Y "]) H Hbig)
    [py "maybe"] (py " Y ") [] eq_refl _ _)).
  - constructor; [vm_compute; reflexivity|constructor].
  - vm_compute. reflexivity.
Defined.

(** C4 as stated fails: the service name "Hosted/Gaza+Roads" passes both
    filters and its layer is saved under a name with a plus sign, which
    [sanitize_filename] would have replaced. *)
Lemma saved_filename_keeps_service_name_characters :
  map fst (saves_of (events (run_main plus_site (fresh []))))
  = [py "downloads_qgis_ready/Gaza+Roads___L0_Roads.geojson"]
  /\ layer_filename plain_class (py "Gaza+Roads") 0 (py "Roads")
     = py "Gaza+Roads___L0_Roads.geojson"
  /\ forallb (safe_char plain_class) (py "Gaza+Roads___L0_Roads.geojson")
     = false
  /\ sanitize_filename plain_class (py "Gaza+Roads") = py "Gaza_Roads".
Proof. vm_compute. repeat split. Qed.



(** C6 as stated fails: a chunk answered with status 503 is skipped and
    nothing about it is printed; the console shows the opening line and the
    closing empty line only. *)
Lemma failed_status_chunk_is_not_logged :
  let run := download_in_chunks nat unavailable layer0_url [1; 2; 3]%Z 3
               (fresh []) in
  chunk_ok nat (unavailable 0 (chunk_request layer0_url [1; 2; 3]%Z)) = false
  /\ events run
     = [Print (downloading_line 3);
        Get (chunk_request layer0_url [1; 2; 3]%Z);
        Sleep100ms;
        Print []]
  /\ outcome run = Ok (FeatureCollection nat []).
Proof. vm_compute. repeat split. Qed.

(** C6 on a chunk whose request times out. *)
Lemma failed_chunk_is_skipped_witness :
  chunk_replies nat timing_out layer0_url [1; 2; 3]%Z 0 !! 0
  = Some (Raised nat (py "timed out"))
  /\ chunk_ok nat (Raised nat (py "timed out")) = false
  /\ In (batch_error_line 0 (py "timed out"))
        (prints_of (events (download_in_chunks nat timing_out layer0_url
                              [1; 2; 3]%Z 3 (fresh [])))).
Proof.
  split; [reflexivity|]. split; [reflexivity|].
  exact (proj1 (failed_chunk_is_skipped nat timing_out layer0_url [1; 2; 3]%Z
                  (fresh []) 0 (Raised nat (py "timed out")) eq_refl eq_refl)
           (py "timed out") eq_refl).
Defined.

(** C7 on the layer of three features. *)
Lemma complete_download_count_witness :
  Forall2 (fun c r => chunk_ok nat r = true
                      /\ length (returned_features nat r) = length c)
          (chunks [1; 2; 3]%Z)
          (chunk_replies nat small_layer layer0_url [1; 2; 3]%Z 1)
  /\ feature_count nat
       (outcome (download_in_chunks nat small_layer layer0_url [1; 2; 3]%Z 3
                   (tick (fresh [])))) = 3.
Proof.
  assert (H : Forall2 (fun c r => chunk_ok nat r = true
                        /\ length (returned_features nat r) = length c)
                (chunks [1; 2; 3]%Z)
                (chunk_replies nat small_layer layer0_url [1; 2; 3]%Z 1)).
  { repeat constructor. }
  split; [exact H|].
  exact (complete_download_count nat small_layer layer0_url [1; 2; 3]%Z
           (tick (fresh [])) H).
Defined.



(** C9 on a second run against [checkpoints_site]. *)
Lemma rerun_writes_same_files_witness :
  same_io (fresh []) second_run
  /\ saves_of (events (run_main checkpoints_site second_run))
     = saves_of (events (run_main checkpoints_site (fresh [])))
  /\ files (world_after (run_main checkpoints_site second_run))
     = files (world_after (run_main checkpoints_site (fresh []))).
Proof.
  assert (H : same_io (fresh []) second_run) by (split; reflexivity).
  split; [exact H|].
  pose proof (rerun_writes_same_files plain_lower plain_class plain_class nat
                checkpoints_site dump_numbers writable (fresh []) second_run H)
    as (Hw & _ & _ & _ & Hidem).
  split; [exact Hw|]. exact (Hidem eq_refl).
Defined.

(** C10 on the answer " Y " at the prompt of the layer of 100001 features. *)
Lemma prompts_normalise_input_witness :
  stdin (fresh [py " Y "]) = [py " Y "]
  /\ normalise plain_lower plain_class (py " Y ")
     = normalise plain_lower plain_class (py "y")
  /\ run_check_layer large_layer (py "Gaza_Checkpoints") gaza_url checkpoints
       (fresh [py " Y "])
     = run_check_layer large_layer (py "Gaza_Checkpoints") gaza_url checkpoints
         (set_stdin [py "y"] (fresh [py " Y "])).
Proof.
  split; [reflexivity|]. split; [reflexivity|].
  refine (proj1 (proj2 (proj2 (proj2 (proj2 (prompts_normalise_input
    plain_lower plain_class plain_class nat large_layer dump_numbers writable
    (py "Gaza_Checkpoints") gaza_url checkpoints (py " Y ") (py "y") []
    (fresh [py " Y "]) eq_refl eq_refl))))) large_ids _ _).
  - eexists. split; reflexivity.
  - vm_compute. reflexivity.
Defined.

(** ** The further properties on concrete runs *)

(** A layer whose ID query is answered with [objectIds] set to [null]. *)
Definition null_ids (n : nat) (req : Request) : Reply nat :=
  doc None None (Some None) None.

(** A service of two layers whose ID queries are answered with status 503. *)
Definition roads : Layer := {| lyr_id := 1; lyr_name := py "Roads" |}.
Definition two_layers (n : nat) (req : Request) : Reply nat :=
  match n with
  | 0 => doc None (Some [checkpoints; roads]) None None
  | _ => unavailable n req
  end.

(** X2 on a layer answered with [objectIds: null]. *)
Lemma null_object_ids_prompt_witness :
  null_ids (calls (fresh [py "n"])) (ids_request layer0_url)
  = doc None None (Some None) None
  /\ exists rest,
      events (run_check_layer null_ids (py "Gaza_Checkpoints") gaza_url
                checkpoints (fresh [py "n"]))
      = [Print (checking_line (py "Gaza_Checkpoints") (py "Checkpoints"));
         Get (ids_request layer0_url);
         Print (py "   [?] Could not determine size. (None)");
         Input unknown_prompt] ++ rest.
Proof.
  split; [reflexivity|].
  exact (null_object_ids_prompt plain_lower plain_class plain_class nat
           null_ids dump_numbers writable (py "Gaza_Checkpoints") gaza_url
           checkpoints _ (fresh [py "n"]) eq_refl eq_refl).
Defined.

(** X3 on a layer whose ID query fails, answered "maybe" and then "n". *)
Lemma unknown_size_needs_confirmation_witness :
  outcome (get_layer_ids nat unavailable layer0_url
             (fresh [py "maybe"; py "n"]))
  = Ok (None, Some (py "HTTP Error 503"))
  /\ requests_of (events (run_check_layer unavailable (py "Gaza_Checkpoints")
                            gaza_url checkpoints
                            (fresh [py "maybe"; py "n"])))
     = [ids_request layer0_url].
Proof.
  split; [reflexivity|].
  refine (proj1 (proj2 (proj2 (proj1 (unknown_size_needs_confirmation
    plain_lower plain_class plain_class nat unavailable dump_numbers writable
    (py "Gaza_Checkpoints") gaza_url checkpoints
    (Some (py "HTTP Error 503")) (fresh [py "maybe"; py "n"]) eq_refl)
    [py "maybe"] (py "n") [] eq_refl _) eq_refl))).
  constructor; [vm_compute; reflexivity|constructor].
Defined.

(** X11 on the catalog name "Hosted/Gaza_Checkpoints". *)
Lemma replace_leading_occurrence_witness :
  py "Hosted/" <> []
  /\ contains (py "Hosted/") (py "Gaza_Checkpoints") = false
  /\ replace (py "Hosted/") [] (py "Hosted/Gaza_Checkpoints")
     = py "Gaza_Checkpoints".
Proof.
  assert (H : py "Hosted/" <> []) by discriminate.
  split; [exact H|]. split; [reflexivity|].
  exact (proj2 (replace_leading_occurrence (py "Hosted/") []
                  (py "Gaza_Checkpoints") H eq_refl)).
Defined.

(** X13 on a service of two layers, the first prompt meeting the end of
    input. *)
Lemma failing_layer_ends_service_witness :
  two_layers 0 (service_request (py "Hosted/Gaza_Checkpoints"))
  = doc None (Some ([] ++ checkpoints :: [roads])) None None
  /\ outcome (run_check_layer two_layers (py "Gaza_Checkpoints") gaza_url
                checkpoints (tick (fresh [])))
     = Exn eof_error
  /\ requests_of (events (scan_service plain_lower plain_class plain_class nat
                            two_layers dump_numbers writable
                            (py "Hosted/Gaza_Checkpoints") (fresh [])))
     = [service_request (py "Hosted/Gaza_Checkpoints");
        ids_request layer0_url].
Proof.
  split; [reflexivity|]. split; [reflexivity|].
  rewrite (failing_layer_ends_service plain_lower plain_class plain_class nat
             two_layers dump_numbers writable (py "Hosted/Gaza_Checkpoints")
             200 _ [] [roads] checkpoints eof_error (fresh [])
             eq_refl eq_refl eq_refl eq_refl).
  reflexivity.
Defined.

(** X19 on the window of the identifiers 1, 2 and 3. *)
Lemma object_ids_parameter_determines_window_witness :
  chunk_params [1; 2; 3]%Z = chunk_params ([1; 2] ++ [3])%Z
  /\ [1; 2; 3]%Z = ([1; 2] ++ [3])%Z.
Proof.
  split; [reflexivity|].
  exact (object_ids_parameter_determines_window [1; 2; 3]%Z
           ([1; 2] ++ [3])%Z eq_refl).
Defined.
